(** * The Beeswarm drone: command processing, relay and lifecycle

  A shallow embedding of [beeswarm/drones/drone.py] (class [Drone]).
  Python byte strings are [string]; the configuration dictionary is a
  [json] tree; the object's attributes are a record; the effects of the
  methods (queue pushes, file operations, workload control, exceptions,
  [sys.exit]) are threaded through a small state-and-exception monad
  that also keeps the ordered trace of what was done. *)

From Stdlib Require Import String Ascii List Bool ZArith Lia DecimalString.
Import ListNotations.
Local Open Scope string_scope.
Set Warnings "-register-all".

(** ** Python strings *)

Module PyStr.

(** [s.partition(' ')] restricted to the case where the separator occurs:
    the text before the first space and the text after it. *)
Fixpoint cut (s : string) : option (string * string) :=
  match s with
  | EmptyString => None
  | String c rest =>
      if Ascii.eqb c " " then Some (EmptyString, rest)
      else match cut rest with
           | Some (before, after) => Some (String c before, after)
           | None => None
           end
  end.

(** [s.split(' ', maxsplit)]: at most [maxsplit] cuts, made at the
    leftmost spaces; neighbouring spaces give empty fields. *)
Fixpoint split (s : string) (maxsplit : nat) : list string :=
  match maxsplit with
  | O => [s]
  | S n => match cut s with
           | None => [s]
           | Some (before, after) => before :: split after n
           end
  end.

(** [needle in hay]. *)
Fixpoint contains (needle hay : string) : bool :=
  String.prefix needle hay ||
  match hay with
  | EmptyString => false
  | String _ rest => contains needle rest
  end.

(** Truth value of a string: empty is false. *)
Definition truthy (s : string) : bool :=
  match s with EmptyString => false | String _ _ => true end.

(** ['{0} {1}'.format(a, b)] and ['{0} {1} {2}'.format(a, b, c)]. *)
Definition format2 (a b : string) : string := a ++ " " ++ b.
Definition format3 (a b c : string) : string := a ++ " " ++ b ++ " " ++ c.

(** [s.endswith('/')]. *)
Fixpoint ends_with_slash (s : string) : bool :=
  match s with
  | EmptyString => false
  | String c EmptyString => Ascii.eqb c "/"
  | String _ rest => ends_with_slash rest
  end.

(** [os.path.join(a, b)] for a relative [b]. *)
Definition path_join (a b : string) : string :=
  match a with
  | EmptyString => b
  | _ => if ends_with_slash a then a ++ b else a ++ "/" ++ b
  end.

(** A token: no space inside. *)
Fixpoint no_space (s : string) : bool :=
  match s with
  | EmptyString => true
  | String c rest => negb (Ascii.eqb c " ") && no_space rest
  end.

End PyStr.

(** ** Configuration documents

    The configuration is what [json.loads] returns: nested dictionaries,
    lists, strings, integers, booleans and [None].  A dictionary is kept as
    the list of its items, each key once.  Floating-point numbers are left
    out of the model. *)

Inductive json : Type :=
| JNull
| JBool (b : bool)
| JNum (n : Z)
| JStr (s : string)
| JArr (items : list json)
| JObj (members : list (string * json)).

Inductive exn : Type :=
| ValueError
| AssertionError
| KeyError
| TypeError
| AttributeError
| IOError
| Timeout
| ConnectionError
| OtherError.

Module Py.

(** Item lookup in the list of items of a dictionary. *)
Fixpoint dict_get (k : string) (d : list (string * json)) : option json :=
  match d with
  | [] => None
  | (k', v) :: rest => if String.eqb k k' then Some v else dict_get k rest
  end.

(** [d[k] = v]: replaces the value of an existing key, adds a new one last. *)
Fixpoint dict_set (k : string) (v : json) (d : list (string * json))
  : list (string * json) :=
  match d with
  | [] => [(k, v)]
  | (k', v') :: rest =>
      if String.eqb k k' then (k, v) :: rest else (k', v') :: dict_set k v rest
  end.

(** [v[k]] with a string key: [KeyError] on a dictionary without the key,
    [TypeError] on anything that is not a dictionary. *)
Definition getitem (v : json) (k : string) : exn + json :=
  match v with
  | JObj d => match dict_get k d with
              | Some x => inr x
              | None => inl KeyError
              end
  | _ => inl TypeError
  end.

(** Truth value, as [if v:] tests it. *)
Definition truthy (v : json) : bool :=
  match v with
  | JNull => false
  | JBool b => b
  | JNum n => negb (n =? 0)%Z
  | JStr s => PyStr.truthy s
  | JArr l => match l with [] => false | _ => true end
  | JObj d => match d with [] => false | _ => true end
  end.

(** [a == b].  Booleans compare as the integers 0 and 1; lists compare
    item by item; dictionaries have the same number of keys and equal values
    under each key of the left one. *)
Fixpoint eqb (a b : json) {struct a} : bool :=
  match a, b with
  | JNull, JNull => true
  | JBool x, JBool y => Bool.eqb x y
  | JBool x, JNum n => (n =? (if x then 1 else 0))%Z
  | JNum n, JBool x => (n =? (if x then 1 else 0))%Z
  | JNum n, JNum m => (n =? m)%Z
  | JStr s, JStr t => String.eqb s t
  | JArr l, JArr r =>
      (fix items (l r : list json) {struct l} : bool :=
         match l, r with
         | [], [] => true
         | x :: l', y :: r' => eqb x y && items l' r'
         | _, _ => false
         end) l r
  | JObj l, JObj r =>
      (length l =? length r)%nat &&
      (fix members (l : list (string * json)) {struct l} : bool :=
         match l with
         | [] => true
         | (k, v) :: l' =>
             match dict_get k r with
             | Some v' => eqb v v'
             | None => false
             end && members l'
         end) l
  | _, _ => false
  end.

(** A document as [json.loads] builds it: no key twice in a dictionary,
    at any depth. *)
Fixpoint has_key (k : string) (d : list (string * json)) : bool :=
  match d with
  | [] => false
  | (k', _) :: rest => String.eqb k k' || has_key k rest
  end.

Fixpoint unique_keys (d : list (string * json)) : bool :=
  match d with
  | [] => true
  | (k, _) :: rest => negb (has_key k rest) && unique_keys rest
  end.

Fixpoint well_formed (j : json) : bool :=
  match j with
  | JArr l => forallb well_formed l
  | JObj d => unique_keys d && forallb (fun kv => well_formed (snd kv)) d
  | _ => true
  end.

(** [a != b]. *)
Definition neqb (a b : json) : bool := negb (eqb a b).

(** [v is None]. *)
Definition is_none (v : json) : bool :=
  match v with JNull => true | _ => false end.

End Py.

(** The functions of the Python library the drone calls.  [loads] is
    [json.loads(text, object_hook=asciify)] ([None] when it raises
    [ValueError]; on byte strings [asciify] changes nothing), [dumps] is
    [json.dumps(value, indent=4)], [str] is the builtin that renders a value
    as text.  The development holds for every implementation of them. *)
Class PyLib : Type := {
  loads : string -> option json;
  dumps : json -> string;
  str : json -> string
}.

(** ** Message and socket names *)

Module Messages.

(** The values of [beeswarm.shared.message_enum.Messages] the drone uses.
    That module is not among the sources; each value below is the token the
    spec's wire tables show for it. *)

(** Modelled from the spec: the inbound command that carries a
    configuration document. *)
Definition CONFIG : string := "CONFIG".

(** Modelled from the spec: the inbound command that deletes the drone. *)
Definition DRONE_DELETE : string := "DELETE".

(** Modelled from the spec: the outbound topic of an acknowledgement or
    presence announcement. *)
Definition PING : string := "PING".

(** Modelled from the spec: the outbound topic that carries the address. *)
Definition IP : string := "IP".

(** Modelled from the spec: the outbound topic that asks for the
    configuration. *)
Definition DRONE_WANT_CONFIG : string := "WANT_CONFIG".

End Messages.

(** [beeswarm.shared.socket_enum.SocketNames]: the two in-process queues.
    [SERVER_RELAY] feeds the outbound relay, [SERVER_COMMANDS] the local
    listeners of server commands. *)
Inductive SocketNames : Type := SERVER_RELAY | SERVER_COMMANDS.

(** ** The drone object and its surroundings *)

(** The two workload classes [_start_drone] chooses from (their modules are
    not among the sources; only the choice and the constructor's arguments
    matter here). *)
Inductive mode : Type := Honeypot | Client.

(** A workload instance [mode(self.work_dir, self.config)]. *)
Record workload : Type := {
  w_mode : mode;
  w_work_dir : string;
  w_config : json
}.

(** The attributes of a [Drone].  [id] is the identity as text, the only
    way the methods read it ([str(self.id)], [format]); [ip] is [None] while
    the attribute has not been assigned; [drone_greenlet] is the greenlet
    running [start] of the workload it names; [config_received] is the
    event used as a latch. *)
Record Drone : Type := {
  work_dir : string;
  config : json;
  config_file : string;
  id : string;
  local_pull_socket : option string;
  drone : option workload;
  drone_greenlet : option workload;
  ip : option string;
  config_received : bool
}.

(** What a method does besides changing attributes, in the order done. *)
Inductive event : Type :=
| Push (to : SocketNames) (message : string)
| WireSend (message : string)
| FileTruncate (path : string)
| FileWrite (path : string) (text : string)
| FileRead (path : string)
| Unlink (g : workload)
| WorkloadStop (w : workload)
| Kill (g : workload)
| Sleep (seconds : Z)
| KillTimeout (g : workload) (timeout : Z)
| Spawn (w : workload)
| LatchSet.

(** The sockets of the command listener. *)
Inductive socket : Type := server_receiving_socket | local_receiving_socket.

(** The drone together with what it acts on: the content of the
    configuration file ([None]: no such file), the messages waiting on the
    two receiving sockets, the two internal queues (oldest first), the
    messages sent to the server, and the trace of events so far. *)
Record World : Type := {
  self : Drone;
  disk : option string;
  server_rx : list string;
  local_rx : list string;
  relay : list string;
  commands : list string;
  wire : list string;
  trace : list event
}.

(** ** Effects

    A method either returns, raises an exception, or ends the process with
    [sys.exit(status)]; what it changed before that stays changed. *)

Inductive result (A : Type) : Type :=
| Returned (a : A) (w : World)
| Raised (e : exn) (w : World)
| Exited (status : Z) (w : World).

Arguments Returned {A} a w.
Arguments Raised {A} e w.
Arguments Exited {A} status w.

Definition M (A : Type) : Type := World -> result A.

Definition ret {A : Type} (a : A) : M A := fun w => Returned a w.

Definition bind {A B : Type} (c : M A) (k : A -> M B) : M B :=
  fun w =>
    match c w with
    | Returned a w' => k a w'
    | Raised e w' => Raised e w'
    | Exited status w' => Exited status w'
    end.

Definition raise {A : Type} (e : exn) : M A := fun w => Raised e w.

(** [sys.exit(status)]. *)
Definition sys_exit {A : Type} (status : Z) : M A := fun w => Exited status w.

Declare Scope drone_scope.
Delimit Scope drone_scope with drone.
Notation "x <- c ;; k" := (bind c (fun x => k))
  (at level 61, c at next level, right associativity) : drone_scope.
Notation "c ;; k" := (bind c (fun _ => k))
  (at level 61, right associativity) : drone_scope.
Local Open Scope drone_scope.

(** The world where the process stands when a computation is over. *)
Definition final {A : Type} (r : result A) : World :=
  match r with
  | Returned _ w => w
  | Raised _ w => w
  | Exited _ w => w
  end.

Definition get_self : M Drone := fun w => Returned (self w) w.

(** Changes of the world, one component at a time. *)
Definition on_self (f : Drone -> Drone) (w : World) : World :=
  {| self := f (self w); disk := disk w; server_rx := server_rx w;
     local_rx := local_rx w; relay := relay w; commands := commands w;
     wire := wire w; trace := trace w |}.

Definition logged (e : event) (w : World) : World :=
  {| self := self w; disk := disk w; server_rx := server_rx w;
     local_rx := local_rx w; relay := relay w; commands := commands w;
     wire := wire w; trace := trace w ++ [e] |}.

Definition stored (content : option string) (w : World) : World :=
  {| self := self w; disk := content; server_rx := server_rx w;
     local_rx := local_rx w; relay := relay w; commands := commands w;
     wire := wire w; trace := trace w |}.

Definition queued (name : SocketNames) (message : string) (w : World)
  : World :=
  {| self := self w; disk := disk w; server_rx := server_rx w;
     local_rx := local_rx w;
     relay := match name with
              | SERVER_RELAY => relay w ++ [message]
              | SERVER_COMMANDS => relay w
              end;
     commands := match name with
                 | SERVER_RELAY => commands w
                 | SERVER_COMMANDS => commands w ++ [message]
                 end;
     wire := wire w; trace := trace w |}.

Definition sent (message : string) (w : World) : World :=
  {| self := self w; disk := disk w; server_rx := server_rx w;
     local_rx := local_rx w; relay := relay w; commands := commands w;
     wire := wire w ++ [message]; trace := trace w |}.

(** The world without the oldest message of a queue. *)
Definition taken_server (w : World) : World :=
  {| self := self w; disk := disk w; server_rx := tl (server_rx w);
     local_rx := local_rx w; relay := relay w; commands := commands w;
     wire := wire w; trace := trace w |}.

Definition taken_local (w : World) : World :=
  {| self := self w; disk := disk w; server_rx := server_rx w;
     local_rx := tl (local_rx w); relay := relay w; commands := commands w;
     wire := wire w; trace := trace w |}.

Definition taken_relay (w : World) : World :=
  {| self := self w; disk := disk w; server_rx := server_rx w;
     local_rx := local_rx w; relay := tl (relay w); commands := commands w;
     wire := wire w; trace := trace w |}.

Definition act (f : World -> World) : M unit := fun w => Returned tt (f w).

Definition modify_self (f : Drone -> Drone) : M unit := act (on_self f).

Definition emit (e : event) : M unit := act (logged e).

(** Lifts a Python expression that may raise. *)
Definition eval {A : Type} (v : exn + A) : M A :=
  match v with
  | inl e => raise e
  | inr a => ret a
  end.

(** [assert cond]. *)
Definition assert (cond : bool) : M unit :=
  if cond then ret tt else raise AssertionError.

(** Attribute assignments. *)
Definition set_config (c : json) (d : Drone) : Drone :=
  {| work_dir := work_dir d; config := c; config_file := config_file d;
     id := id d; local_pull_socket := local_pull_socket d; drone := drone d;
     drone_greenlet := drone_greenlet d; ip := ip d;
     config_received := config_received d |}.

Definition set_drone (o : option workload) (d : Drone) : Drone :=
  {| work_dir := work_dir d; config := config d; config_file := config_file d;
     id := id d; local_pull_socket := local_pull_socket d; drone := o;
     drone_greenlet := drone_greenlet d; ip := ip d;
     config_received := config_received d |}.

Definition set_drone_greenlet (o : option workload) (d : Drone) : Drone :=
  {| work_dir := work_dir d; config := config d; config_file := config_file d;
     id := id d; local_pull_socket := local_pull_socket d; drone := drone d;
     drone_greenlet := o; ip := ip d;
     config_received := config_received d |}.

Definition set_config_received (d : Drone) : Drone :=
  {| work_dir := work_dir d; config := config d; config_file := config_file d;
     id := id d; local_pull_socket := local_pull_socket d; drone := drone d;
     drone_greenlet := drone_greenlet d; ip := ip d;
     config_received := true |}.

(** Modelled from the spec: [send_zmq_push(name, message)] of
    [beeswarm.shared.helpers] is not among the sources; it emits the
    message onto the internal queue of that name, which keeps the order of
    arrival.  The PUSH sockets the drone opens itself on these queues
    ([outgoing_proxy], [internal_server_relay]) send the same way. *)
Definition send_zmq_push (name : SocketNames) (message : string) : M unit :=
  act (fun w => logged (Push name message) (queued name message w)).

(** [sending_socket.send(message)]: the message leaves for the server. *)
Definition wire_send (message : string) : M unit :=
  act (fun w => logged (WireSend message) (sent message w)).

(** [with open(path, 'w') as f: f.write(text)]: opening for writing empties
    the file in place, the write then fills it. *)
Definition open_w (path : string) : M unit :=
  act (fun w => logged (FileTruncate path) (stored (Some EmptyString) w)).

Definition file_write (path text : string) : M unit :=
  act (fun w =>
         logged (FileWrite path text)
           (stored (Some (match disk w with
                          | Some old => old ++ text
                          | None => text
                          end)) w)).

(** [with open(path, 'r') as f]: the content, [IOError] when there is no
    file. *)
Definition file_read (path : string) : M string :=
  fun w =>
    match disk w with
    | Some text => Returned text (logged (FileRead path) w)
    | None => Raised IOError w
    end.

(** ** The methods of [Drone] *)

Section Methods.

Context {py : PyLib}.

(** [Drone.stop]: stops the workload, if one is set, and kills its
    greenlet; the greenlet attribute is never cleared, so a later call
    kills it once more. *)
Definition stop : M unit :=
  d <- get_self ;;
  match drone d with
  | Some w =>
      match drone_greenlet d with
      | Some g =>
          emit (Unlink g) ;;
          emit (WorkloadStop w) ;;
          emit (Kill g) ;;
          modify_self (set_drone None)
      | None => raise AttributeError
      end
  | None => ret tt
  end ;;
  emit (Sleep 2) ;;
  d <- get_self ;;
  match drone_greenlet d with
  | Some g => emit (KillTimeout g 5)
  | None => ret tt
  end.

(** The class [_start_drone] picks for the value of
    [self.config['general']['mode']]: none for the empty string, [None] and
    every other value. *)
Definition select_mode (m : json) : option mode :=
  if Py.eqb m (JStr EmptyString) || Py.is_none m then None
  else if Py.eqb m (JStr "honeypot") then Some Honeypot
  else if Py.eqb m (JStr "client") then Some Client
  else None.

(** [self.config['general']['mode']]. *)
Definition general_mode (c : json) : exn + json :=
  match Py.getitem c "general" with
  | inl e => inl e
  | inr general => Py.getitem general "mode"
  end.

(** [Drone._start_drone]: reads the configuration back from the file and
    starts the workload its mode names. *)
Definition _start_drone : M unit :=
  d <- get_self ;;
  text <- file_read (config_file d) ;;
  match loads text with
  | None => raise ValueError
  | Some c =>
      modify_self (set_config c) ;;
      m <- eval (general_mode c) ;;
      match select_mode m with
      | Some cls =>
          let w := {| w_mode := cls; w_work_dir := work_dir d;
                      w_config := c |} in
          modify_self (set_drone (Some w)) ;;
          emit (Spawn w) ;;
          modify_self (set_drone_greenlet (Some w))
      | None => ret tt
      end
  end.

(** [Drone.on_exception], linked to both message greenlets and to the
    workload's greenlet. *)
Definition on_exception : M unit :=
  stop ;;
  sys_exit 1.

(** A greenlet body with [link_exception(self.on_exception)]: an exception
    raised by the body ends the body and runs the handler. *)
Definition linked (body : M unit) : M unit :=
  fun w =>
    match body w with
    | Raised _ w' => on_exception w'
    | r => r
    end.

(** [Drone._handle_delete]. *)
Definition _handle_delete : M unit :=
  d <- get_self ;;
  match drone d with
  | Some w => emit (WorkloadStop w)
  | None => ret tt
  end ;;
  sys_exit 0.

(** The configuration branch of the command listener, from the
    acknowledging PING on. *)
Definition handle_config (data : string) : M unit :=
  send_zmq_push SERVER_RELAY Messages.PING ;;
  match loads data with
  | None => raise ValueError
  | Some c =>
      d <- get_self ;;
      if Py.neqb (config d) c || negb (config_received d) then
        modify_self (set_config c) ;;
        open_w (config_file d) ;;
        file_write (config_file d) (dumps c) ;;
        stop ;;
        _start_drone ;;
        modify_self set_config_received ;;
        emit LatchSet
      else ret tt
  end.

(** What the command listener does with one message of the server
    (lines 186 to 208 of the loop body). *)
Definition handle_server_message (message : string) : M unit :=
  match PyStr.split message 2 with
  | [drone_id; command; data] =>
      d <- get_self ;;
      assert (String.eqb drone_id (id d)) ;;
      if String.eqb command Messages.CONFIG then handle_config data
      else if String.eqb command Messages.DRONE_DELETE then _handle_delete
      else send_zmq_push SERVER_COMMANDS (PyStr.format2 command data)
  | _ => raise ValueError
  end.

(** What it does with one message of the local socket. *)
Definition handle_local_message (data : string) : M unit :=
  d <- get_self ;;
  send_zmq_push SERVER_RELAY (PyStr.format2 (id d) data).

(** The poller of the command listener: the sockets registered with it.
    [poll] gives the registered sockets that have a message waiting. *)
Definition waiting (s : socket) (w : World) : bool :=
  match s with
  | server_receiving_socket =>
      match server_rx w with [] => false | _ => true end
  | local_receiving_socket =>
      match local_rx w with [] => false | _ => true end
  end.

Definition poll (registered : list socket) : M (list socket) :=
  fun w => Returned (filter (fun s => waiting s w) registered) w.

Definition socket_eqb (a b : socket) : bool :=
  match a, b with
  | server_receiving_socket, server_receiving_socket => true
  | local_receiving_socket, local_receiving_socket => true
  | _, _ => false
  end.

(** [s in socks]. *)
Definition ready (s : socket) (socks : list socket) : bool :=
  existsb (socket_eqb s) socks.

(** [s.recv()] on a socket the poller reported; it is not called on an
    empty one. *)
Definition recv (s : socket) : M string :=
  fun w =>
    match s with
    | server_receiving_socket =>
        match server_rx w with
        | m :: _ => Returned m (taken_server w)
        | [] => Raised OtherError w
        end
    | local_receiving_socket =>
        match local_rx w with
        | m :: _ => Returned m (taken_local w)
        | [] => Raised OtherError w
        end
    end.

(** The poller [incoming_server_comms] builds: one [register] call, for the
    server socket. *)
Definition incoming_poller : list socket := [server_receiving_socket].

(** One turn of the loop of [incoming_server_comms], for a given poller. *)
Definition incoming_turn (poller : list socket) : M unit :=
  socks <- poll poller ;;
  if ready server_receiving_socket socks then
    message <- recv server_receiving_socket ;;
    handle_server_message message
  else if ready local_receiving_socket socks then
    data <- recv local_receiving_socket ;;
    handle_local_message data
  else ret tt.

(** [n] turns of the loop, and the greenlet that runs them. *)
Fixpoint incoming_loop (n : nat) : M unit :=
  match n with
  | O => ret tt
  | S n' => incoming_turn incoming_poller ;; incoming_loop n'
  end.

Definition incoming_server_comms (n : nat) : M unit :=
  linked (incoming_loop n).

(** The message [outgoing_server_comms] sends for a message taken from the
    relay queue: the drone's id goes in after the topic.  The last case is
    the unpacking [topic, data = data_split] of a list that has not two
    items; [split] with one cut never gives one. *)
Definition inject_id (own_id message : string) : exn + string :=
  match PyStr.split message 1 with
  | [topic] => inr (PyStr.format2 topic own_id)
  | [topic; data] => inr (PyStr.format3 topic own_id data)
  | _ => inl ValueError
  end.

(** [internal_server_relay.recv()] in the relay: the oldest message of the
    queue, if there is one. *)
Definition relay_poll : M (option string) :=
  fun w =>
    match relay w with
    | [] => Returned None w
    | m :: _ => Returned (Some m) (taken_relay w)
    end.

(** One turn of the loop of [outgoing_server_comms]. *)
Definition outgoing_turn : M unit :=
  polled <- relay_poll ;;
  match polled with
  | Some message =>
      d <- get_self ;;
      new_message <- eval (inject_id (id d) message) ;;
      wire_send new_message
  | None => ret tt
  end.

Fixpoint outgoing_loop (n : nat) : M unit :=
  match n with
  | O => ret tt
  | S n' => outgoing_turn ;; outgoing_loop n'
  end.

Definition outgoing_server_comms (n : nat) : M unit :=
  linked (outgoing_loop n).

(** The monitor events [monitor_worker] tells apart. *)
Inductive zmq_event : Type :=
| EVENT_CONNECTED
| EVENT_DISCONNECTED
| EVENT_OTHER.

(** The log names the two greenlets give their monitors, for the url each
    connects to. *)
Definition outgoing_log_name (url : string) : string :=
  "outgoing socket (" ++ url ++ ").".

Definition incoming_log_name (url : string) : string :=
  "incomming socket (" ++ url ++ ").".

(** What [monitor_worker] does with one monitor event.  [own_ip] is the
    text [get_most_likely_ip()] returns at that moment (a helper that is
    not among the sources). *)
Definition monitor_worker (log_name : string) (own_ip : string)
  (event : zmq_event) : M unit :=
  match event with
  | EVENT_CONNECTED =>
      send_zmq_push SERVER_RELAY Messages.DRONE_WANT_CONFIG ;;
      if PyStr.contains "outgoing" log_name then
        send_zmq_push SERVER_RELAY Messages.PING ;;
        send_zmq_push SERVER_RELAY (PyStr.format2 Messages.IP own_ip)
      else if PyStr.truthy "incomming" then ret tt
      else assert false
  | EVENT_DISCONNECTED => ret tt
  | EVENT_OTHER => ret tt
  end.

(** [Drone.__init__], in the order of the source.  What it calls outside
    the drone comes in as the outcome of the call: [keys] is what
    [extract_keys(work_dir, config)] does (line 52; it returns or raises),
    [bound] what creating the socket of server commands and binding it
    does (lines 68 to 70), [fetched] what the body of the [try] does when
    it is run (lines 74 to 77): the text it assigns to [self.ip], or the
    exception it raises. *)
Definition __init__ (work_dir_ : string) (config_ : json)
  (local_pull_socket_ : option string) (keys bound : exn + unit)
  (fetched : exn + string) : exn + Drone :=
  match keys with
  | inl e => inl e
  | inr _ =>
      match Py.getitem config_ "general" with
      | inl e => inl e
      | inr general =>
          match Py.getitem general "id" with
          | inl e => inl e
          | inr id_ =>
              match bound with
              | inl e => inl e
              | inr _ =>
                  match Py.getitem general "fetch_ip" with
                  | inl e => inl e
                  | inr fetch_ip =>
                      let built (ip_ : option string) :=
                        {| work_dir := work_dir_; config := config_;
                           config_file :=
                             PyStr.path_join work_dir_ "beeswarmcfg.json";
                           id := str id_;
                           local_pull_socket := local_pull_socket_;
                           drone := None; drone_greenlet := None; ip := ip_;
                           config_received := false |} in
                      if Py.truthy fetch_ip then
                        match fetched with
                        | inr text => inr (built (Some text))
                        | inl Timeout => inr (built None)
                        | inl ConnectionError => inr (built None)
                        | inl e => inl e
                        end
                      else inr (built (Some EmptyString))
                  end
              end
          end
      end
  end.

End Methods.

(** ** An implementation of the library functions

    A reader and a writer for JSON text over [json] (integers, strings
    without escapes, the three literals, arrays, objects), and [str] for
    scalars.  It serves to run the methods on concrete messages; no
    statement about the drone depends on it. *)

Module MiniJson.

Definition quote : ascii := Ascii.ascii_of_nat 34.

Definition decimal (n : Z) : string := NilZero.string_of_int (Z.to_int n).

Definition quoted (s : string) : string :=
  String quote (s ++ String quote EmptyString).

Fixpoint write (j : json) : string :=
  match j with
  | JNull => "null"
  | JBool true => "true"
  | JBool false => "false"
  | JNum n => decimal n
  | JStr s => quoted s
  | JArr l =>
      "[" ++
      (fix items (l : list json) : string :=
         match l with
         | [] => EmptyString
         | [x] => write x
         | x :: rest => write x ++ ", " ++ items rest
         end) l ++ "]"
  | JObj d =>
      "{" ++
      (fix members (d : list (string * json)) : string :=
         match d with
         | [] => EmptyString
         | [(k, v)] => quoted k ++ ": " ++ write v
         | (k, v) :: rest => quoted k ++ ": " ++ write v ++ ", " ++ members rest
         end) d ++ "}"
  end.

Definition is_blank (c : ascii) : bool :=
  let n := Ascii.nat_of_ascii c in
  (n =? 32)%nat || (n =? 10)%nat || (n =? 13)%nat || (n =? 9)%nat.

Fixpoint skip (s : string) : string :=
  match s with
  | String c rest => if is_blank c then skip rest else s
  | EmptyString => s
  end.

(** The text up to the closing quote, and what follows the quote. *)
Fixpoint until_quote (s : string) : option (string * string) :=
  match s with
  | EmptyString => None
  | String c rest =>
      if Ascii.eqb c quote then Some (EmptyString, rest)
      else match until_quote rest with
           | Some (body, after) => Some (String c body, after)
           | None => None
           end
  end.

Definition is_digit (c : ascii) : bool :=
  let n := Ascii.nat_of_ascii c in
  ((48 <=? n)%nat && (n <=? 57)%nat) || (n =? 45)%nat.

Fixpoint digits (s : string) : string * string :=
  match s with
  | String c rest =>
      if is_digit c then let (d, after) := digits rest in (String c d, after)
      else (EmptyString, s)
  | EmptyString => (EmptyString, s)
  end.

Fixpoint drop (n : nat) (s : string) : string :=
  match n, s with
  | S n', String _ rest => drop n' rest
  | _, _ => s
  end.

Definition literal (word : string) (v : json) (s : string)
  : option (json * string) :=
  if String.prefix word s then Some (v, drop (String.length word) s) else None.

Fixpoint read_items (rd : string -> option (json * string)) (n : nat)
  (s : string) (acc : list json) : option (json * string) :=
  match n with
  | O => None
  | S n' =>
      match rd s with
      | None => None
      | Some (x, rest) =>
          match skip rest with
          | String c rest' =>
              if Ascii.eqb c "," then read_items rd n' rest' (acc ++ [x])
              else if Ascii.eqb c "]" then Some (JArr (acc ++ [x]), rest')
              else None
          | EmptyString => None
          end
      end
  end.

Fixpoint read_members (rd : string -> option (json * string)) (n : nat)
  (s : string) (acc : list (string * json)) : option (json * string) :=
  match n with
  | O => None
  | S n' =>
      match skip s with
      | String c rest =>
          if Ascii.eqb c quote then
            match until_quote rest with
            | None => None
            | Some (k, after) =>
                match skip after with
                | String c' after' =>
                    if Ascii.eqb c' ":" then
                      match rd after' with
                      | None => None
                      | Some (v, rest') =>
                          match skip rest' with
                          | String c2 rest2 =>
                              if Ascii.eqb c2 "," then
                                read_members rd n' rest2 (Py.dict_set k v acc)
                              else if Ascii.eqb c2 "}" then
                                Some (JObj (Py.dict_set k v acc), rest2)
                              else None
                          | EmptyString => None
                          end
                      end
                    else None
                | EmptyString => None
                end
            end
          else None
      | EmptyString => None
      end
  end.

Fixpoint read (fuel : nat) (s : string) : option (json * string) :=
  match fuel with
  | O => None
  | S f =>
      match skip s with
      | EmptyString => None
      | String c rest =>
          if Ascii.eqb c quote then
            match until_quote rest with
            | Some (body, after) => Some (JStr body, after)
            | None => None
            end
          else if Ascii.eqb c "[" then
            match skip rest with
            | String c' rest' =>
                if Ascii.eqb c' "]" then Some (JArr [], rest')
                else read_items (read f) f rest []
            | EmptyString => None
            end
          else if Ascii.eqb c "{" then
            match skip rest with
            | String c' rest' =>
                if Ascii.eqb c' "}" then Some (JObj [], rest')
                else read_members (read f) f rest []
            | EmptyString => None
            end
          else if Ascii.eqb c "t" then literal "rue" (JBool true) rest
          else if Ascii.eqb c "f" then literal "alse" (JBool false) rest
          else if Ascii.eqb c "n" then literal "ull" JNull rest
          else
            let (d, after) := digits (String c rest) in
            match NilZero.int_of_string d with
            | Some i => Some (JNum (Z.of_int i), after)
            | None => None
            end
      end
  end.

Definition parse (s : string) : option json :=
  match read (S (String.length s)) s with
  | Some (j, rest) =>
      match skip rest with
      | EmptyString => Some j
      | _ => None
      end
  | None => None
  end.

Definition render (j : json) : string :=
  match j with
  | JStr s => s
  | JBool true => "True"
  | JBool false => "False"
  | JNull => "None"
  | _ => write j
  end.

Definition lib : PyLib := {| loads := parse; dumps := write; str := render |}.

End MiniJson.

(** ** Sample data *)

Module Sample.

Definition cfg (mode_ : json) (fetch : bool) : json :=
  JObj [("general",
         JObj [("id", JStr "A1"); ("mode", mode_); ("fetch_ip", JBool fetch)]);
        ("beeswarm_server",
         JObj [("zmq_url", JStr "tcp://hive:5712");
               ("zmq_command_url", JStr "tcp://hive:5713")])].

Definition honeypot_cfg : json := cfg (JStr "honeypot") false.
Definition client_cfg : json := cfg (JStr "client") false.
Definition unset_cfg : json := cfg (JStr EmptyString) false.

Definition hive (c : json) : workload :=
  {| w_mode := Honeypot; w_work_dir := "/var/drone"; w_config := c |}.

(** A drone that has its configuration and runs a honeypot. *)
Definition running : Drone :=
  {| work_dir := "/var/drone"; config := honeypot_cfg;
     config_file := "/var/drone/beeswarmcfg.json"; id := "A1";
     local_pull_socket := Some "/var/drone/local.sock";
     drone := Some (hive honeypot_cfg);
     drone_greenlet := Some (hive honeypot_cfg);
     ip := Some EmptyString; config_received := true |}.

(** A drone just constructed: nothing received, nothing running. *)
Definition fresh : Drone :=
  {| work_dir := "/var/drone"; config := unset_cfg;
     config_file := "/var/drone/beeswarmcfg.json"; id := "A1";
     local_pull_socket := Some "/var/drone/local.sock";
     drone := None; drone_greenlet := None;
     ip := Some EmptyString; config_received := false |}.

Definition world (d : Drone) (file : option string) : World :=
  {| self := d; disk := file; server_rx := []; local_rx := [];
     relay := []; commands := []; wire := []; trace := [] |}.

(** The same with messages waiting on the two receiving sockets. *)
Definition inbox (d : Drone) (file : option string)
  (from_server from_local : list string) : World :=
  {| self := d; disk := file; server_rx := from_server;
     local_rx := from_local; relay := []; commands := []; wire := [];
     trace := [] |}.

Definition config_message (c : json) : string :=
  "A1 CONFIG " ++ MiniJson.write c.

End Sample.

(** ** Observations used in the statements *)

(** The number of spaces of a message. *)
Fixpoint spaces (s : string) : nat :=
  match s with
  | EmptyString => O
  | String c rest => (if Ascii.eqb c " " then 1 else 0) + spaces rest
  end.

(** The fields the command listener unpacks, and the first of them. *)
Definition fields (message : string) : list string := PyStr.split message 2.

Definition leading_token (message : string) : string :=
  hd EmptyString (fields message).

(** The exit status of a run that ended the process. *)
Definition exit_status {A : Type} (r : result A) : option Z :=
  match r with
  | Exited status _ => Some status
  | _ => None
  end.

(** A drone whose workload, when set, has its greenlet set: what
    [_start_drone] establishes and [stop] keeps. *)
Definition well_linked (d : Drone) : Prop :=
  drone d = None \/ drone_greenlet d <> None.

(** A computation keeps the link between workload and greenlet when the
    world it ends in, however it ends, has it whenever the world it
    started in had it. *)
Definition keeps {A : Type} (c : M A) : Prop :=
  forall w, well_linked (self w) -> well_linked (self (final (c w))).

(** The events of a call of [stop] on a drone. *)
Definition stop_events (d : Drone) : list event :=
  match drone d, drone_greenlet d with
  | Some w, Some g => [Unlink g; WorkloadStop w; Kill g; Sleep 2; KillTimeout g 5]
  | _, Some g => [Sleep 2; KillTimeout g 5]
  | _, None => [Sleep 2]
  end.

(** The events of [_handle_delete] before the exit. *)
Definition delete_events (d : Drone) : list event :=
  match drone d with
  | Some w => [WorkloadStop w]
  | None => []
  end.

(** The workload [_start_drone] builds for a class, and its event. *)
Definition started (d : Drone) (c : json) (cls : option mode)
  : option workload :=
  match cls with
  | Some m => Some {| w_mode := m; w_work_dir := work_dir d; w_config := c |}
  | None => None
  end.

Definition spawn_events (o : option workload) : list event :=
  match o with
  | Some w => [Spawn w]
  | None => []
  end.

(** The content of the configuration file after each file event of a
    trace, from the content before it. *)
Fixpoint file_states (content : option string) (t : list event)
  : list (option string) :=
  match t with
  | [] => []
  | FileTruncate _ :: rest =>
      Some EmptyString :: file_states (Some EmptyString) rest
  | FileWrite _ text :: rest =>
      let now := Some (match content with
                       | Some old => old ++ text
                       | None => text
                       end) in
      now :: file_states now rest
  | _ :: rest => file_states content rest
  end.

(** An overwrite is atomic when no state shown to a reader is anything
    but the old or the new content. *)
Definition atomic_overwrite (old new : option string)
  (states : list (option string)) : Prop :=
  forall s, In s states -> s = old \/ s = new.

(** The message the relay sends for a queued one. *)
Definition relayed (own_id message : string) : string :=
  match PyStr.cut message with
  | None => message ++ " " ++ own_id
  | Some (topic, data) => topic ++ " " ++ own_id ++ " " ++ data
  end.

(** The world after more events. *)
Definition logged_all (es : list event) (w : World) : World :=
  {| self := self w; disk := disk w; server_rx := server_rx w;
     local_rx := local_rx w; relay := relay w; commands := commands w;
     wire := wire w; trace := trace w ++ es |}.

(** The world [stop] leaves. *)
Definition after_stop (w : World) : World :=
  logged_all (stop_events (self w))
    match drone (self w) with
    | Some _ => on_self (set_drone None) w
    | None => w
    end.

(** The world the command listener leaves when a configuration document
    [c] has been applied and its mode names the class [cls]. *)
Definition reconciled {py : PyLib} (c : json) (cls : option mode) (w : World)
  : World :=
  let d := self w in
  let f := config_file d in
  let o := started d c cls in
  {| self :=
       {| work_dir := work_dir d; config := c; config_file := f; id := id d;
          local_pull_socket := local_pull_socket d; drone := o;
          drone_greenlet := match o with
                            | Some g => Some g
                            | None => drone_greenlet d
                            end;
          ip := ip d; config_received := true |};
     disk := Some (dumps c);
     server_rx := server_rx w; local_rx := local_rx w;
     relay := relay w ++ [Messages.PING];
     commands := commands w; wire := wire w;
     trace := trace w ++
              [Push SERVER_RELAY Messages.PING; FileTruncate f;
               FileWrite f (dumps c)] ++
              stop_events d ++ [FileRead f] ++ spawn_events o ++ [LatchSet] |}.

(** The world the relay leaves when it has sent all that was queued. *)
Definition drained (w : World) : World :=
  let out := map (relayed (id (self w))) (relay w) in
  {| self := self w; disk := disk w; server_rx := server_rx w;
     local_rx := local_rx w; relay := []; commands := commands w;
     wire := wire w ++ out; trace := trace w ++ map WireSend out |}.

(** ** Assertions about computations *)

(** What holds of the world a computation ends in, by the way it ends:
    [Q] when it returns, [X] when it raises, [E] when it ends the process. *)
Definition triple {A : Type} (P : World -> Prop) (c : M A)
  (Q : A -> World -> Prop) (X : World -> Prop) (E : Z -> World -> Prop)
  : Prop :=
  forall w, P w ->
    match c w with
    | Returned a w' => Q a w'
    | Raised _ w' => X w'
    | Exited status w' => E status w'
    end.

(** A property of the world that a computation never breaks, however it
    ends. *)
Definition always {A : Type} (P : World -> Prop) (c : M A) : Prop :=
  triple P c (fun _ => P) P (fun _ => P).

(** The number of workloads alive after a trace, from the number alive
    before it; [None] when the trace starts a workload while one is alive
    or stops one while none is. *)
Fixpoint alive (n : nat) (t : list event) : option nat :=
  match t with
  | [] => Some n
  | Spawn _ :: rest =>
      match n with
      | O => alive 1 rest
      | S _ => None
      end
  | WorkloadStop _ :: rest =>
      match n with
      | S k => alive k rest
      | O => None
      end
  | _ :: rest => alive n rest
  end.

(** The number of workloads the drone object holds. *)
Definition held (d : Drone) : nat :=
  match drone d with
  | Some _ => 1
  | None => 0
  end.

(** A world whose trace accounts for the workload the drone holds: never
    two alive, and alive now exactly the one held. *)
Definition accounted (w : World) : Prop :=
  well_linked (self w) /\ alive 0 (trace w) = Some (held (self w)).

(** A trace in which workloads ran one at a time. *)
Definition one_at_a_time (t : list event) : Prop :=
  exists n, alive 0 t = Some n /\ n <= 1.

(** The same of the world in which the process ends, whatever the
    status. *)
Definition exits (status : Z) (w : World) : Prop := one_at_a_time (trace w).

(** The events of a second call of [stop], the workload being gone. *)
Definition restop_events (d : Drone) : list event :=
  match drone_greenlet d with
  | Some g => [Sleep 2; KillTimeout g 5]
  | None => [Sleep 2]
  end.

(** A message of three fields whose command is the given one. *)
Definition is_command (name message : string) : bool :=
  match fields message with
  | [_; command; _] => String.eqb command name
  | _ => false
  end.

(** ** Proof steps *)

Ltac run :=
  unfold bind, ret, raise, sys_exit, emit, modify_self, act, get_self, eval,
    assert, send_zmq_push, wire_send, open_w, file_write, file_read; simpl.

Ltac fields_of_world :=
  cbn [self disk server_rx local_rx relay commands wire trace
       work_dir config config_file id local_pull_socket drone drone_greenlet
       ip config_received].

(** Worlds built from a world given by its components: the changes are
    carried out innermost first. *)
Ltac tidy :=
  cbv beta iota delta
    [logged_all logged on_self stored queued sent taken_server taken_local
     taken_relay set_config set_drone set_drone_greenlet set_config_received
     self disk server_rx local_rx relay commands wire trace
     work_dir config config_file id local_pull_socket drone drone_greenlet
     ip config_received tl];
  repeat rewrite <- app_assoc; cbn [app]; repeat rewrite app_nil_r.

(** ** Strings: splitting *)

Section Splitting.

Lemma cut_token (t : string) :
  PyStr.no_space t = true -> PyStr.cut t = None.
Proof.
  induction t as [|c t IH]; simpl; [reflexivity|].
  destruct (Ascii.eqb c " "); simpl; [discriminate|].
  intros H. rewrite (IH H). reflexivity.
Qed.

Lemma cut_at_space (t p : string) :
  PyStr.no_space t = true -> PyStr.cut (t ++ String " " p) = Some (t, p).
Proof.
  induction t as [|c t IH]; simpl; [reflexivity|].
  destruct (Ascii.eqb c " "); simpl; [discriminate|].
  intros H. rewrite (IH H). reflexivity.
Qed.

Lemma cut_payload (t p : string) :
  PyStr.no_space t = true -> PyStr.cut (t ++ " " ++ p) = Some (t, p).
Proof. exact (cut_at_space t p). Qed.

Lemma cut_spaces_none (s : string) :
  PyStr.cut s = None -> spaces s = O.
Proof.
  induction s as [|c s IH]; simpl; [reflexivity|].
  destruct (Ascii.eqb c " "); [discriminate|].
  destruct (PyStr.cut s) as [[a b]|]; [discriminate|].
  intros _. simpl. apply IH. reflexivity.
Qed.

Lemma cut_spaces_some (s a b : string) :
  PyStr.cut s = Some (a, b) -> spaces s = S (spaces b).
Proof.
  revert a. induction s as [|c s IH]; simpl; intros a; [discriminate|].
  destruct (Ascii.eqb c " ").
  - intros H. injection H as _ Hb. subst b. reflexivity.
  - destruct (PyStr.cut s) as [[a' b']|]; [|discriminate].
    intros H. injection H as _ Hb. subst b'. simpl. apply (IH a'). reflexivity.
Qed.

Lemma cut_rebuild (s a b : string) :
  PyStr.cut s = Some (a, b) ->
  s = a ++ String " " b /\ PyStr.no_space a = true.
Proof.
  revert a. induction s as [|c s IH]; simpl; intros a; [discriminate|].
  destruct (Ascii.eqb_spec c " ") as [Hc|Hc].
  - intros H. injection H as Ha Hb. subst a b c. split; reflexivity.
  - destruct (PyStr.cut s) as [[a' b']|]; [|discriminate].
    intros H. injection H as Ha Hb. subst a b'.
    destruct (IH a' eq_refl) as [Hs Hn]. split.
    + simpl. rewrite <- Hs. reflexivity.
    + simpl. rewrite Hn. destruct (Ascii.eqb_spec c " "); [contradiction|reflexivity].
Qed.

(** The number of fields is one more than the number of cuts made. *)
Lemma split_length (n : nat) (s : string) :
  length (PyStr.split s n) = S (Nat.min (spaces s) n).
Proof.
  revert s. induction n as [|n IH]; intros s; simpl.
  - rewrite Nat.min_0_r. reflexivity.
  - destruct (PyStr.cut s) as [[a b]|] eqn:Hcut.
    + simpl. rewrite IH. rewrite (cut_spaces_some _ _ _ Hcut). reflexivity.
    + rewrite (cut_spaces_none _ Hcut). reflexivity.
Qed.

(** Every message is a token, or a token, a space and a payload. *)
Lemma token_or_payload (m : string) :
  PyStr.no_space m = true \/
  exists t p, m = t ++ " " ++ p /\ PyStr.no_space t = true.
Proof.
  destruct (PyStr.cut m) as [[t p]|] eqn:E.
  - right. exists t, p. exact (cut_rebuild m t p E).
  - left. induction m as [|c m IH]; [reflexivity|].
    simpl in *. destruct (Ascii.eqb c " "); [discriminate|].
    destruct (PyStr.cut m) as [[a b]|]; [discriminate|].
    simpl. apply IH. reflexivity.
Qed.

Lemma split_one_token (t : string) :
  PyStr.no_space t = true -> PyStr.split t 1 = [t].
Proof. intros H. simpl. rewrite (cut_token _ H). reflexivity. Qed.

Lemma split_one_payload (t p : string) :
  PyStr.no_space t = true -> PyStr.split (t ++ " " ++ p) 1 = [t; p].
Proof. intros H. simpl. rewrite (cut_at_space _ _ H). reflexivity. Qed.

Lemma split_command (a b data : string) :
  PyStr.no_space a = true -> PyStr.no_space b = true ->
  PyStr.split (a ++ " " ++ b ++ " " ++ data) 2 = [a; b; data].
Proof.
  intros Ha Hb. simpl.
  rewrite (cut_at_space _ _ Ha). rewrite (cut_at_space _ _ Hb). reflexivity.
Qed.

Lemma prefix_append (a b : string) : String.prefix a (a ++ b) = true.
Proof.
  induction a as [|c a IH]; simpl.
  - destruct b; reflexivity.
  - destruct (ascii_dec c c) as [_|N]; [exact IH|contradiction].
Qed.

Lemma contains_of_prefix (a h : string) :
  String.prefix a h = true -> PyStr.contains a h = true.
Proof.
  intros P. destruct h; cbn [PyStr.contains]; rewrite P; reflexivity.
Qed.

Lemma contains_prefix (a b : string) : PyStr.contains a (a ++ b) = true.
Proof. apply contains_of_prefix, prefix_append. Qed.

End Splitting.

(** ** Documents: equality *)

Section Documents.

Variable P : json -> Prop.
Hypothesis P_null : P JNull.
Hypothesis P_bool : forall b, P (JBool b).
Hypothesis P_num : forall n, P (JNum n).
Hypothesis P_str : forall s, P (JStr s).
Hypothesis P_arr : forall l, Forall P l -> P (JArr l).
Hypothesis P_obj : forall d, Forall (fun kv => P (snd kv)) d -> P (JObj d).

(** Induction over a document, with the property at hand for every item
    of a list and every value of a dictionary. *)
Fixpoint json_tree_ind (j : json) : P j :=
  match j with
  | JNull => P_null
  | JBool b => P_bool b
  | JNum n => P_num n
  | JStr s => P_str s
  | JArr l =>
      P_arr l
        ((fix items (l : list json) : Forall P l :=
            match l with
            | [] => Forall_nil P
            | x :: rest => Forall_cons x (json_tree_ind x) (items rest)
            end) l)
  | JObj d =>
      P_obj d
        ((fix members (d : list (string * json))
            : Forall (fun kv => P (snd kv)) d :=
            match d with
            | [] => Forall_nil _
            | kv :: rest =>
                Forall_cons kv (json_tree_ind (snd kv)) (members rest)
            end) d)
  end.

End Documents.

Section DocumentEquality.

Lemma dict_get_absent (k : string) (d : list (string * json)) :
  Py.has_key k d = false -> Py.dict_get k d = None.
Proof.
  induction d as [|[k' v] d IH]; simpl; [reflexivity|].
  destruct (String.eqb k k'); simpl; [discriminate|exact IH].
Qed.

(** In a dictionary without repeated keys, each item is what its key
    looks up. *)
Lemma dict_get_item (pre post : list (string * json)) (k : string) (v : json) :
  Py.unique_keys (pre ++ (k, v) :: post) = true ->
  Py.dict_get k (pre ++ (k, v) :: post) = Some v.
Proof.
  induction pre as [|[k' v'] pre IH]; simpl.
  - rewrite String.eqb_refl. reflexivity.
  - intros H. apply andb_true_iff in H. destruct H as [Hk Hu].
    destruct (String.eqb_spec k k') as [E|E].
    + subst k'. exfalso.
      assert (Py.has_key k (pre ++ (k, v) :: post) = true) as A.
      { clear. induction pre as [|[a b] pre IH]; simpl.
        - rewrite String.eqb_refl. reflexivity.
        - rewrite IH. apply orb_true_r. }
      rewrite A in Hk. discriminate.
    + exact (IH Hu).
Qed.

(** A well-formed document equals itself under [==]. *)
Lemma eqb_refl (j : json) : Py.well_formed j = true -> Py.eqb j j = true.
Proof.
  induction j as [ | b | n | s | l IH | d IH ] using json_tree_ind;
    intros W; simpl.
  - reflexivity.
  - destruct b; reflexivity.
  - apply Z.eqb_refl.
  - apply String.eqb_refl.
  - simpl in W. induction IH as [|x l Hx _ IHl]; [reflexivity|].
    simpl in W. apply andb_true_iff in W. destruct W as [Wx Wl].
    rewrite (Hx Wx). simpl. exact (IHl Wl).
  - simpl in W. apply andb_true_iff in W. destruct W as [U W].
    rewrite Nat.eqb_refl. simpl.
    assert (G : forall pre post, d = (pre ++ post)%list ->
              (fix members (l : list (string * json)) : bool :=
                 match l with
                 | [] => true
                 | (k, v) :: l' =>
                     match Py.dict_get k d with
                     | Some v' => Py.eqb v v'
                     | None => false
                     end && members l'
                 end) post = true).
    { intros pre post. revert pre.
      induction post as [|[k v] post IHp]; intros pre E; [reflexivity|].
      rewrite E at 1. rewrite dict_get_item by (rewrite <- E; exact U).
      assert (In (k, v) d) as I by (rewrite E; apply in_or_app; right; left; reflexivity).
      rewrite Forall_forall in IH. rewrite forallb_forall in W.
      pose proof (IH (k, v) I (W (k, v) I)) as R. cbn [snd] in R.
      rewrite R. simpl.
      apply (IHp (pre ++ [(k, v)])%list). rewrite <- app_assoc. exact E. }
    exact (G [] d eq_refl).
Qed.

End DocumentEquality.

(** ** The lifecycle methods *)

Section Lifecycle.

Context {py : PyLib}.

Lemma logged_all_nil (w : World) : logged_all [] w = w.
Proof. destruct w; unfold logged_all; simpl. rewrite app_nil_r. reflexivity. Qed.

Lemma stop_returns (w : World) :
  well_linked (self w) -> stop w = Returned tt (after_stop w).
Proof.
  intros L. destruct w as [d dk srx lrx rl cm wr tr].
  unfold stop, after_stop, stop_events, well_linked in *. simpl in *.
  destruct (drone d) as [wl|] eqn:Hd; destruct (drone_greenlet d) as [g|] eqn:Hg.
  - run. rewrite Hd, Hg. run. rewrite Hg. tidy. reflexivity.
  - destruct L as [L|L]; [discriminate | contradiction].
  - run. rewrite Hd. run. rewrite Hg. tidy. reflexivity.
  - run. rewrite Hd. run. rewrite Hg. tidy. reflexivity.
Qed.

Lemma disk_after_stop (w : World) : disk (after_stop w) = disk w.
Proof. unfold after_stop. destruct (drone (self w)); reflexivity. Qed.

Lemma after_stop_well_linked (w : World) : well_linked (self (after_stop w)).
Proof.
  left. unfold after_stop. destruct (drone (self w)) eqn:E; simpl; assumption || reflexivity.
Qed.

Lemma on_exception_exits (w : World) :
  well_linked (self w) -> on_exception w = Exited 1 (after_stop w).
Proof.
  intros L. unfold on_exception, bind. rewrite (stop_returns w L). reflexivity.
Qed.

Lemma handle_delete_exits (w : World) :
  _handle_delete w = Exited 0 (logged_all (delete_events (self w)) w).
Proof.
  unfold _handle_delete, delete_events. run.
  destruct w as [d dk srx lrx rl cm wr tr]; simpl.
  destruct (drone d); run; tidy; reflexivity.
Qed.

End Lifecycle.

(** ** The command listener *)

Section Listener.

Context {py : PyLib}.

(** A turn with a message of the server waiting handles that message. *)
Lemma incoming_turn_server (w : World) (m : string) (rest : list string) :
  server_rx w = m :: rest ->
  incoming_turn incoming_poller w = handle_server_message m (taken_server w).
Proof.
  intros H. unfold incoming_turn, incoming_poller, poll, bind, recv, waiting.
  simpl. rewrite H. simpl. rewrite H. reflexivity.
Qed.

(** A turn with no message of the server waiting does nothing, whatever
    waits on the local socket. *)
Lemma incoming_turn_idle (w : World) :
  server_rx w = [] -> incoming_turn incoming_poller w = Returned tt w.
Proof.
  intros H. unfold incoming_turn, incoming_poller, poll, bind, waiting.
  simpl. rewrite H. reflexivity.
Qed.

Lemma incoming_loop_idle (n : nat) (w : World) :
  server_rx w = [] -> incoming_loop n w = Returned tt w.
Proof.
  intros H. induction n as [|n IH]; simpl; [reflexivity|].
  unfold bind. rewrite (incoming_turn_idle w H). exact IH.
Qed.

Lemma incoming_loop_step (n : nat) (w : World) (m : string) (rest : list string) :
  server_rx w = m :: rest ->
  incoming_loop (S n) w =
  bind (handle_server_message m) (fun _ => incoming_loop n) (taken_server w).
Proof.
  intros H. simpl. unfold bind at 1. rewrite (incoming_turn_server w m rest H).
  reflexivity.
Qed.

(** A message with fewer than three fields, or with another first field
    than the drone's id, makes the handler raise before it has done
    anything. *)
Lemma handle_rejected (w : World) (message : string) :
  spaces message < 2 \/ leading_token message <> id (self w) ->
  exists e, handle_server_message message w = Raised e w.
Proof.
  intros H. unfold handle_server_message.
  assert (L := split_length 2 message).
  unfold leading_token, fields in H.
  destruct (PyStr.split message 2) as [|a [|b [|c [|x l]]]] eqn:E;
    try (exists ValueError; reflexivity).
  destruct H as [H|H].
  - simpl in L. lia.
  - simpl in H. run. destruct (String.eqb_spec a (id (self w))) as [Q|Q];
      [contradiction|]. exists AssertionError. reflexivity.
Qed.

End Listener.

(** ** Applying a configuration *)

Section Reconciliation.

Context {py : PyLib}.

(** [v == 'text'] holds of the string itself and of nothing else. *)
Lemma eqb_string (v : json) (s : string) :
  Py.eqb v (JStr s) = true <-> v = JStr s.
Proof.
  destruct v; simpl; try (split; [discriminate|discriminate]).
  rewrite String.eqb_eq. split; [intros ->; reflexivity|].
  intros H; injection H as ->; reflexivity.
Qed.

Lemma select_mode_class (m : json) (cls : mode) :
  select_mode m = Some cls <->
  (m = JStr "honeypot" /\ cls = Honeypot) \/ (m = JStr "client" /\ cls = Client).
Proof.
  unfold select_mode. split.
  - destruct (Py.eqb m (JStr EmptyString) || Py.is_none m); [discriminate|].
    destruct (Py.eqb m (JStr "honeypot")) eqn:H.
    + intros E. injection E as <-. left. split; [|reflexivity].
      apply eqb_string. exact H.
    + destruct (Py.eqb m (JStr "client")) eqn:C; [|discriminate].
      intros E. injection E as <-. right. split; [|reflexivity].
      apply eqb_string. exact C.
  - intros [[-> ->]|[-> ->]]; reflexivity.
Qed.

Lemma start_drone_returns (w : World) (text : string) (c m : json) :
  disk w = Some text ->
  loads text = Some c ->
  general_mode c = inr m ->
  _start_drone w =
  Returned tt
    (let o := started (self w) c (select_mode m) in
     match o with
     | Some g =>
         on_self (set_drone_greenlet (Some g))
           (logged (Spawn g)
              (on_self (set_drone (Some g))
                 (on_self (set_config c)
                    (logged (FileRead (config_file (self w))) w))))
     | None =>
         on_self (set_config c) (logged (FileRead (config_file (self w))) w)
     end).
Proof.
  intros Hd Hl Hm. unfold _start_drone. run. rewrite Hd. simpl.
  rewrite Hl. run. rewrite Hm. simpl.
  destruct (select_mode m); reflexivity.
Qed.

(** The configuration branch, when the document is new or the first one,
    the file reads back as written and the document names a mode. *)
Lemma handle_config_applies (w : World) (data : string) (c m : json) :
  loads data = Some c ->
  Py.neqb (config (self w)) c = true \/ config_received (self w) = false ->
  loads (dumps c) = Some c ->
  general_mode c = inr m ->
  well_linked (self w) ->
  handle_config data w = Returned tt (reconciled c (select_mode m) w).
Proof.
  intros Hl Hnew Hrt Hm L. unfold handle_config. run. rewrite Hl.
  assert (Hc : Py.neqb (config (self w)) c || negb (config_received (self w)) = true).
  { destruct Hnew as [H|H]; rewrite H; [reflexivity|apply orb_true_r]. }
  cbn [self logged queued stored on_self]. rewrite Hc. run.
  rewrite stop_returns by exact L.
  erewrite start_drone_returns;
    [ | rewrite disk_after_stop; reflexivity | exact Hrt | exact Hm ].
  f_equal. clear. destruct w as [d dk srx lrx rl cm wr tr].
  destruct d as [wd cf f i lps dr dg ip_ cr].
  unfold reconciled, after_stop, stop_events, started, spawn_events.
  fields_of_world.
  destruct dr, dg, (select_mode m); tidy; reflexivity.
Qed.

End Reconciliation.

(** ** The workload and its greenlet stay linked

    Every method leaves a drone whose workload, when set, has its greenlet
    set; the statements above that assume it of the starting world assume
    nothing a run of the drone could break. *)

Create HintDb keeps.

Section Invariant.

Context {py : PyLib}.

Lemma keeps_ret {A : Type} (a : A) : keeps (ret a).
Proof. intros w L. exact L. Qed.

Lemma keeps_raise {A : Type} (e : exn) : keeps (raise (A := A) e).
Proof. intros w L. exact L. Qed.

Lemma keeps_exit {A : Type} (status : Z) : keeps (sys_exit (A := A) status).
Proof. intros w L. exact L. Qed.

Lemma keeps_bind {A B : Type} (c : M A) (k : A -> M B) :
  keeps c -> (forall a, keeps (k a)) -> keeps (bind c k).
Proof.
  intros Hc Hk w L. unfold bind. specialize (Hc w L).
  destruct (c w) as [a w'|e w'|s w']; cbn [final] in *;
    [apply Hk; exact Hc | exact Hc | exact Hc].
Qed.

Lemma keeps_act (f : World -> World) :
  (forall w, self (f w) = self w) -> keeps (act f).
Proof. intros H w L. unfold act. cbn [final]. rewrite H. exact L. Qed.

Lemma keeps_get_self : keeps get_self.
Proof. intros w L. exact L. Qed.

Lemma keeps_emit (e : event) : keeps (emit e).
Proof. apply keeps_act. reflexivity. Qed.

Lemma keeps_send_zmq_push (name : SocketNames) (message : string) :
  keeps (send_zmq_push name message).
Proof. apply keeps_act. reflexivity. Qed.

Lemma keeps_wire_send (message : string) : keeps (wire_send message).
Proof. apply keeps_act. reflexivity. Qed.

Lemma keeps_open_w (path : string) : keeps (open_w path).
Proof. apply keeps_act. reflexivity. Qed.

Lemma keeps_file_write (path text : string) : keeps (file_write path text).
Proof. apply keeps_act. reflexivity. Qed.

Lemma keeps_file_read (path : string) : keeps (file_read path).
Proof. intros w L. unfold file_read. destruct (disk w); exact L. Qed.

Lemma keeps_eval {A : Type} (v : exn + A) : keeps (eval v).
Proof. destruct v; intros w L; exact L. Qed.

Lemma keeps_assert (b : bool) : keeps (assert b).
Proof. destruct b; intros w L; exact L. Qed.

Lemma keeps_set_config (c : json) : keeps (modify_self (set_config c)).
Proof. intros w L. exact L. Qed.

Lemma keeps_set_config_received : keeps (modify_self set_config_received).
Proof. intros w L. exact L. Qed.

Lemma keeps_recv (s : socket) : keeps (recv s).
Proof.
  intros w L. unfold recv.
  destruct s; [destruct (server_rx w)|destruct (local_rx w)]; exact L.
Qed.

Lemma keeps_poll (registered : list socket) : keeps (poll registered).
Proof. intros w L. exact L. Qed.

Lemma keeps_relay_poll : keeps relay_poll.
Proof. intros w L. unfold relay_poll. destruct (relay w); exact L. Qed.

Lemma keeps_stop : keeps stop.
Proof.
  intros w L. rewrite (stop_returns w L). apply after_stop_well_linked.
Qed.

Hint Resolve keeps_ret keeps_raise keeps_exit keeps_get_self keeps_emit
  keeps_send_zmq_push keeps_wire_send keeps_open_w keeps_file_write
  keeps_file_read keeps_eval keeps_assert keeps_set_config
  keeps_set_config_received keeps_recv keeps_poll keeps_relay_poll
  keeps_stop : keeps.

(** The three steps by which [_start_drone] sets workload and greenlet:
    the link is missing between them and back after them. *)
Lemma keeps_spawn (g : workload) :
  keeps (bind (modify_self (set_drone (Some g)))
           (fun _ => bind (emit (Spawn g))
              (fun _ => modify_self (set_drone_greenlet (Some g))))).
Proof. intros w L. right. discriminate. Qed.

Ltac keeping :=
  repeat first
    [ solve [auto with keeps]
    | apply keeps_spawn
    | apply keeps_bind; [|intros]
    | match goal with
      | |- keeps (match ?x with _ => _ end) => destruct x
      | |- keeps (if ?x then _ else _) => destruct x
      end ].

Lemma keeps_start_drone : keeps _start_drone.
Proof. unfold _start_drone. keeping. Qed.

Lemma keeps_on_exception : keeps on_exception.
Proof. unfold on_exception. keeping. Qed.

Lemma keeps_linked (body : M unit) : keeps body -> keeps (linked body).
Proof.
  intros H w L. unfold linked. specialize (H w L).
  destruct (body w) as [a w'|e w'|s w']; cbn [final] in *;
    [exact H | apply keeps_on_exception; exact H | exact H].
Qed.

Lemma keeps_handle_delete : keeps _handle_delete.
Proof. unfold _handle_delete. keeping. Qed.

Hint Resolve keeps_start_drone keeps_on_exception keeps_handle_delete
  : keeps.

Lemma keeps_handle_config (data : string) : keeps (handle_config data).
Proof. unfold handle_config. keeping. Qed.

Hint Resolve keeps_handle_config : keeps.

Lemma keeps_handle_server_message (message : string) :
  keeps (handle_server_message message).
Proof. unfold handle_server_message. keeping. Qed.

Lemma keeps_handle_local_message (data : string) :
  keeps (handle_local_message data).
Proof. unfold handle_local_message. keeping. Qed.

Hint Resolve keeps_handle_server_message keeps_handle_local_message : keeps.

Lemma keeps_incoming_turn (poller : list socket) :
  keeps (incoming_turn poller).
Proof. unfold incoming_turn. keeping. Qed.

Lemma keeps_outgoing_turn : keeps outgoing_turn.
Proof. unfold outgoing_turn. keeping. Qed.

Lemma keeps_monitor_worker (log_name own_ip : string) (event : zmq_event) :
  keeps (monitor_worker log_name own_ip event).
Proof. unfold monitor_worker. keeping. Qed.

Hint Resolve keeps_incoming_turn keeps_outgoing_turn : keeps.

(** The two message greenlets keep the link for any number of turns. *)
Lemma keeps_incoming_server_comms (n : nat) : keeps (incoming_server_comms n).
Proof.
  unfold incoming_server_comms. apply keeps_linked.
  induction n as [|n IH]; cbn [incoming_loop]; keeping.
Qed.

Lemma keeps_outgoing_server_comms (n : nat) : keeps (outgoing_server_comms n).
Proof.
  unfold outgoing_server_comms. apply keeps_linked.
  induction n as [|n IH]; cbn [outgoing_loop]; keeping.
Qed.

(** A drone as the constructor builds it has no workload, so the link
    holds from the start. *)
Lemma init_well_linked (wd : string) (c : json) (lps : option string)
  (keys bound : exn + unit) (fetched : exn + string) (d : Drone) :
  __init__ wd c lps keys bound fetched = inr d -> well_linked d.
Proof.
  unfold __init__. intros H. left.
  destruct keys as [e|k]; [discriminate|].
  destruct (Py.getitem c "general") as [e|general]; [discriminate|].
  destruct (Py.getitem general "id") as [e|id_]; [discriminate|].
  destruct bound as [e|k']; [discriminate|].
  destruct (Py.getitem general "fetch_ip") as [e|fetch_ip]; [discriminate|].
  destruct (Py.truthy fetch_ip).
  - destruct fetched as [[]|text]; try discriminate;
      injection H as <-; reflexivity.
  - injection H as <-. reflexivity.
Qed.

End Invariant.

(** ** Properties of the command listener *)

Section ListenerClaims.

Context {py : PyLib}.

Lemma handle_config_message (w : World) (message data : string) :
  fields message = [id (self w); Messages.CONFIG; data] ->
  handle_server_message message w = handle_config data w.
Proof.
  unfold fields, handle_server_message. intros H. rewrite H.
  unfold bind, get_self, assert. rewrite String.eqb_refl. reflexivity.
Qed.

Lemma handle_delete_message (w : World) (message data : string) :
  fields message = [id (self w); Messages.DRONE_DELETE; data] ->
  handle_server_message message w = _handle_delete w.
Proof.
  unfold fields, handle_server_message. intros H. rewrite H.
  unfold bind, get_self, assert. rewrite String.eqb_refl. reflexivity.
Qed.

(** One turn of the listener's greenlet on a waiting message of the
    server: the handler's outcome, an exception going to [on_exception]. *)
Lemma listener_one (w : World) (m : string) (rest : list string) :
  server_rx w = m :: rest ->
  incoming_server_comms 1 w =
  match handle_server_message m (taken_server w) with
  | Raised _ w' => on_exception w'
  | r => r
  end.
Proof.
  intros H. unfold incoming_server_comms, linked.
  rewrite (incoming_loop_step 0 w m rest H). unfold bind.
  destruct (handle_server_message m (taken_server w)) as [[] w'|e w'|s w'];
    reflexivity.
Qed.

(** A handler that raises or exits ends the greenlet, however many turns
    were still to come. *)
Lemma listener_raised (n : nat) (w w' : World) (m : string)
  (rest : list string) (e : exn) :
  server_rx w = m :: rest ->
  handle_server_message m (taken_server w) = Raised e w' ->
  incoming_server_comms (S n) w = on_exception w'.
Proof.
  intros H R. unfold incoming_server_comms, linked.
  rewrite (incoming_loop_step n w m rest H). unfold bind. rewrite R.
  reflexivity.
Qed.

Lemma listener_exited (n : nat) (w w' : World) (m : string)
  (rest : list string) (status : Z) :
  server_rx w = m :: rest ->
  handle_server_message m (taken_server w) = Exited status w' ->
  incoming_server_comms (S n) w = Exited status w'.
Proof.
  intros H R. unfold incoming_server_comms, linked.
  rewrite (incoming_loop_step n w m rest H). unfold bind. rewrite R.
  reflexivity.
Qed.

(** C1 (as amended).  A CONFIG command whose document compares equal to the
    configuration in memory, arriving with the latch set, changes no
    attribute of the drone, leaves the configuration file alone, stops and
    starts nothing; its one effect is the PING pushed onto the relay queue,
    which the listener sends before it reads the document. *)
Theorem repeated_config_is_only_acknowledged (w : World)
  (message data : string) (rest : list string) (c : json) :
  server_rx w = message :: rest ->
  fields message = [id (self w); Messages.CONFIG; data] ->
  loads data = Some c ->
  Py.eqb (config (self w)) c = true ->
  config_received (self w) = true ->
  exists w',
    incoming_server_comms 1 w = Returned tt w' /\
    self w' = self w /\
    disk w' = disk w /\
    commands w' = commands w /\
    relay w' = (relay w ++ [Messages.PING])%list /\
    trace w' = (trace w ++ [Push SERVER_RELAY Messages.PING])%list.
Proof.
  intros Hrx Hf Hl He Hr.
  exists (logged (Push SERVER_RELAY Messages.PING)
            (queued SERVER_RELAY Messages.PING (taken_server w))).
  split; [|repeat split].
  rewrite (listener_one w message rest Hrx).
  rewrite (handle_config_message (taken_server w) message data Hf).
  unfold handle_config, bind, send_zmq_push, act, get_self.
  rewrite Hl. cbn [self logged queued taken_server].
  unfold Py.neqb. rewrite He, Hr. reflexivity.
Qed.

(** C2 (as amended).  A message of the server with fewer than three fields,
    or whose first field is not the drone's id, is not acted on: the
    configuration, the latch, the file and both internal queues stay as they
    were.  The listener does not go on, though: the exception ends its
    greenlet and [on_exception] stops the workload and ends the process
    with status 1. *)
Theorem rejected_message_ends_the_drone (n : nat) (w : World)
  (message : string) (rest : list string) :
  server_rx w = message :: rest ->
  spaces message < 2 \/ leading_token message <> id (self w) ->
  well_linked (self w) ->
  exists w',
    incoming_server_comms (S n) w = Exited 1 w' /\
    config (self w') = config (self w) /\
    config_received (self w') = config_received (self w) /\
    disk w' = disk w /\
    relay w' = relay w /\
    commands w' = commands w /\
    wire w' = wire w /\
    drone (self w') = None /\
    trace w' = (trace w ++ stop_events (self w))%list.
Proof.
  intros Hrx Hbad L.
  destruct (handle_rejected (taken_server w) message Hbad) as [e He].
  exists (after_stop (taken_server w)). split.
  - rewrite (listener_raised n w _ message rest e Hrx He).
    apply on_exception_exits. exact L.
  - clear. destruct w as [d dk srx lrx rl cm wr tr].
    destruct d as [wd cf f i lps dr dg ip_ cr].
    unfold after_stop, stop_events. destruct dr, dg; tidy; repeat split.
Qed.

(** C3.  A CONFIG command with a new document (or the first one received)
    is applied in the order: write the file, stop the old workload, start
    the new one, set the latch.  A document whose mode is honeypot or
    client starts a workload of that class, built with the document; any
    other mode starts none.  Afterwards the file holds the written
    document, which reads back as the configuration in memory, and the
    workload started was built with it. *)
Theorem new_config_is_written_then_applied (w : World)
  (message data : string) (rest : list string) (c general m : json) :
  server_rx w = message :: rest ->
  fields message = [id (self w); Messages.CONFIG; data] ->
  loads data = Some c ->
  Py.neqb (config (self w)) c = true \/ config_received (self w) = false ->
  loads (dumps c) = Some c ->
  Py.getitem c "general" = inr general ->
  Py.getitem general "mode" = inr m ->
  well_linked (self w) ->
  exists w',
    incoming_server_comms 1 w = Returned tt w' /\
    (forall cls,
       (m = JStr "honeypot" /\ cls = Honeypot) \/
       (m = JStr "client" /\ cls = Client) ->
       drone (self w')
       = Some {| w_mode := cls; w_work_dir := work_dir (self w);
                 w_config := c |} /\
       trace w' =
         (trace w ++
          [Push SERVER_RELAY Messages.PING;
           FileTruncate (config_file (self w));
           FileWrite (config_file (self w)) (dumps c)] ++
          stop_events (self w) ++
          [FileRead (config_file (self w));
           Spawn {| w_mode := cls; w_work_dir := work_dir (self w);
                    w_config := c |};
           LatchSet])%list) /\
    (m <> JStr "honeypot" -> m <> JStr "client" ->
     drone (self w') = None /\
     trace w' =
       (trace w ++
        [Push SERVER_RELAY Messages.PING;
         FileTruncate (config_file (self w));
         FileWrite (config_file (self w)) (dumps c)] ++
        stop_events (self w) ++
        [FileRead (config_file (self w)); LatchSet])%list) /\
    disk w' = Some (dumps c) /\
    loads (dumps c) = Some (config (self w')) /\
    config (self w') = c /\
    (forall wl, drone (self w') = Some wl -> w_config wl = config (self w')) /\
    config_received (self w') = true.
Proof.
  intros Hrx Hf Hl Hnew Hrt Hg Hmode L.
  assert (Hm : general_mode c = inr m).
  { unfold general_mode. rewrite Hg. exact Hmode. }
  exists (reconciled c (select_mode m) (taken_server w)). split.
  - rewrite (listener_one w message rest Hrx).
    rewrite (handle_config_message (taken_server w) message data Hf).
    rewrite (handle_config_applies (taken_server w) data c m Hl Hnew Hrt Hm L).
    reflexivity.
  - unfold reconciled. cbn [self disk trace config drone config_received taken_server
                            config_file].
    split; [|split; [|repeat split; try assumption]].
    + intros cls H. apply select_mode_class in H. rewrite H.
      unfold started, spawn_events. split; reflexivity.
    + intros N1 N2. destruct (select_mode m) as [k|] eqn:S.
      * apply select_mode_class in S.
        destruct S as [[-> _]|[-> _]]; contradiction.
      * unfold started, spawn_events. split; reflexivity.
    + intros wl. unfold started. destruct (select_mode m); intros E;
        [injection E as <-; reflexivity | discriminate].
Qed.

(** C7.  A DELETE command stops the workload, when one is set, and then
    ends the process with status 0; with no workload it ends the process
    with status 0 at once.  Nothing else is touched. *)
Theorem delete_stops_the_workload_then_exits (n : nat) (w : World)
  (message data : string) (rest : list string) :
  server_rx w = message :: rest ->
  fields message = [id (self w); Messages.DRONE_DELETE; data] ->
  exists w',
    incoming_server_comms (S n) w = Exited 0 w' /\
    (forall wl, drone (self w) = Some wl ->
                trace w' = (trace w ++ [WorkloadStop wl])%list) /\
    (drone (self w) = None -> trace w' = trace w) /\
    self w' = self w /\
    disk w' = disk w /\
    relay w' = relay w /\
    commands w' = commands w.
Proof.
  intros Hrx Hf.
  exists (logged_all (delete_events (self w)) (taken_server w)). split.
  - apply (listener_exited n w _ message rest 0 Hrx).
    rewrite (handle_delete_message (taken_server w) message data Hf).
    exact (handle_delete_exits (taken_server w)).
  - unfold delete_events. cbn [self disk relay commands trace logged_all taken_server].
    repeat split.
    + intros wl E. rewrite E. reflexivity.
    + intros E. rewrite E. apply app_nil_r.
Qed.

Lemma file_states_of_reconciliation (content : option string) (f text : string)
  (d : Drone) (o : option workload) :
  file_states content
    ([Push SERVER_RELAY Messages.PING; FileTruncate f; FileWrite f text] ++
     stop_events d ++ [FileRead f] ++ spawn_events o ++ [LatchSet])
  = [Some EmptyString; Some text].
Proof.
  unfold stop_events, spawn_events.
  destruct (drone d), (drone_greenlet d), o; reflexivity.
Qed.

(** C9 (as amended).  A reconciliation rewrites the configuration file in
    place: the file is opened for writing, which empties it, and the
    document is then written; these are the only two changes of the file,
    and the file ends up holding the new document. *)
Theorem config_file_is_rewritten_in_place (w : World)
  (message data : string) (rest : list string) (c m : json) :
  server_rx w = message :: rest ->
  fields message = [id (self w); Messages.CONFIG; data] ->
  loads data = Some c ->
  Py.neqb (config (self w)) c = true \/ config_received (self w) = false ->
  loads (dumps c) = Some c ->
  general_mode c = inr m ->
  well_linked (self w) ->
  exists w' added,
    incoming_server_comms 1 w = Returned tt w' /\
    trace w' = (trace w ++ added)%list /\
    file_states (disk w) added = [Some EmptyString; Some (dumps c)] /\
    disk w' = Some (dumps c).
Proof.
  intros Hrx Hf Hl Hnew Hrt Hm L.
  exists (reconciled c (select_mode m) (taken_server w)).
  eexists. split; [|split; [|split]].
  - rewrite (listener_one w message rest Hrx).
    rewrite (handle_config_message (taken_server w) message data Hf).
    rewrite (handle_config_applies (taken_server w) data c m Hl Hnew Hrt Hm L).
    reflexivity.
  - unfold reconciled. cbn [trace taken_server]. reflexivity.
  - apply file_states_of_reconciliation.
  - reflexivity.
Qed.

End ListenerClaims.

(** ** The relay and the monitors *)

Section RelayClaims.

Context {py : PyLib}.

(** The relay never fails on a message: one cut gives one or two fields. *)
Lemma inject_id_relayed (own_id message : string) :
  inject_id own_id message = inr (relayed own_id message).
Proof.
  unfold inject_id, relayed. cbn [PyStr.split].
  destruct (PyStr.cut message) as [[topic data]|]; reflexivity.
Qed.

Lemma outgoing_turn_sends (w : World) (m : string) (rest : list string) :
  relay w = m :: rest ->
  outgoing_turn w =
  Returned tt
    (logged (WireSend (relayed (id (self w)) m))
       (sent (relayed (id (self w)) m) (taken_relay w))).
Proof.
  intros H. unfold outgoing_turn, bind, relay_poll. rewrite H.
  unfold get_self, eval. cbn [self taken_relay].
  rewrite inject_id_relayed. reflexivity.
Qed.

Lemma outgoing_turn_idle (w : World) :
  relay w = [] -> outgoing_turn w = Returned tt w.
Proof.
  intros H. unfold outgoing_turn, bind, relay_poll. rewrite H. reflexivity.
Qed.

(** As many turns as there are queued messages send them all, oldest
    first. *)
Lemma outgoing_loop_drains (q : list string) :
  forall w, relay w = q -> outgoing_loop (length q) w = Returned tt (drained w).
Proof.
  induction q as [|m q IH]; intros w H.
  - destruct w as [d dk srx lrx rl cm wr tr]. cbn [relay] in H. subst rl.
    unfold drained. cbn. repeat rewrite app_nil_r. reflexivity.
  - cbn [length outgoing_loop]. unfold bind.
    rewrite (outgoing_turn_sends w m q H).
    rewrite IH.
    + f_equal. destruct w as [d dk srx lrx rl cm wr tr]. cbn [relay] in H.
      subst rl. unfold drained. tidy. reflexivity.
    + cbn [relay logged sent taken_relay]. rewrite H. reflexivity.
Qed.

(** C4.  For a message taken from the relay queue, the message sent to the
    server is the topic, the drone's id, and then the payload as it stood:
    a topic alone gives the two tokens, a topic with a payload gives the
    two tokens and the payload, whatever spaces the payload has. *)
Theorem relay_injects_the_id (w : World) (topic : string)
  (rest : list string) :
  PyStr.no_space topic = true ->
  (relay w = topic :: rest ->
   exists w',
     outgoing_turn w = Returned tt w' /\
     wire w' = (wire w ++ [(topic ++ " " ++ id (self w))%string])%list /\
     relay w' = rest) /\
  (forall p : string,
   relay w = (topic ++ " " ++ p)%string :: rest ->
   exists w',
     outgoing_turn w = Returned tt w' /\
     wire w' =
       (wire w ++ [(topic ++ " " ++ id (self w) ++ " " ++ p)%string])%list /\
     relay w' = rest).
Proof.
  intros T. split.
  - intros H. eexists. split; [exact (outgoing_turn_sends w _ rest H)|].
    unfold relayed. rewrite (cut_token topic T).
    cbn [wire relay logged sent taken_relay]. rewrite H. split; reflexivity.
  - intros p H. eexists. split; [exact (outgoing_turn_sends w _ rest H)|].
    unfold relayed. rewrite (cut_payload topic p T).
    cbn [wire relay logged sent taken_relay]. rewrite H. split; reflexivity.
Qed.

Lemma monitor_outgoing_connected (w : World) (log_name own_ip : string) :
  PyStr.contains "outgoing" log_name = true ->
  monitor_worker log_name own_ip EVENT_CONNECTED w =
  Returned tt
    (logged (Push SERVER_RELAY (PyStr.format2 Messages.IP own_ip))
       (queued SERVER_RELAY (PyStr.format2 Messages.IP own_ip)
          (logged (Push SERVER_RELAY Messages.PING)
             (queued SERVER_RELAY Messages.PING
                (logged (Push SERVER_RELAY Messages.DRONE_WANT_CONFIG)
                   (queued SERVER_RELAY Messages.DRONE_WANT_CONFIG w)))))).
Proof.
  intros H. unfold monitor_worker, bind, send_zmq_push, act. rewrite H.
  reflexivity.
Qed.

(** C8.  When the sending socket connects, its monitor puts three messages
    on the relay queue, in the order WANT_CONFIG, PING, IP with the
    address; the relay then sends, after what was queued before, the three
    of them with the drone's id after the topic, in that order. *)
Theorem connect_announces_in_order (w : World) (url own_ip : string) :
  exists w1 w2,
    monitor_worker (outgoing_log_name url) own_ip EVENT_CONNECTED w
      = Returned tt w1 /\
    relay w1 =
      (relay w ++
       [Messages.DRONE_WANT_CONFIG; Messages.PING;
        (Messages.IP ++ " " ++ own_ip)%string])%list /\
    outgoing_server_comms (length (relay w1)) w1 = Returned tt w2 /\
    relay w2 = [] /\
    wire w2 =
      (wire w ++ map (relayed (id (self w))) (relay w) ++
       [("WANT_CONFIG " ++ id (self w))%string;
        ("PING " ++ id (self w))%string;
        ("IP " ++ id (self w) ++ " " ++ own_ip)%string])%list.
Proof.
  eexists. eexists. split; [|split; [|split; [|split]]].
  - apply monitor_outgoing_connected. unfold outgoing_log_name.
    apply (contains_prefix "outgoing" (" socket (" ++ url ++ ").")).
  - destruct w as [d dk srx lrx rl cm wr tr]. tidy. reflexivity.
  - unfold outgoing_server_comms, linked.
    rewrite (outgoing_loop_drains _ _ eq_refl). reflexivity.
  - reflexivity.
  - destruct w as [d dk srx lrx rl cm wr tr]. unfold drained. tidy.
    rewrite map_app. reflexivity.
Qed.

(** C10.  The [elif] of the monitor tests a string constant that is not
    empty, so the [assert False] after it is never reached: the monitor
    returns on every event under every log name.  Under a log name without
    the word outgoing a connect puts WANT_CONFIG on the relay queue and
    nothing else. *)
Theorem monitor_never_asserts (w : World) (log_name own_ip : string)
  (event : zmq_event) :
  PyStr.truthy "incomming" = true /\
  (exists w', monitor_worker log_name own_ip event w = Returned tt w') /\
  (PyStr.contains "outgoing" log_name = false ->
   exists w',
     monitor_worker log_name own_ip EVENT_CONNECTED w = Returned tt w' /\
     relay w' = (relay w ++ [Messages.DRONE_WANT_CONFIG])%list /\
     trace w' =
       (trace w ++ [Push SERVER_RELAY Messages.DRONE_WANT_CONFIG])%list /\
     commands w' = commands w /\
     wire w' = wire w).
Proof.
  split; [reflexivity|]. split.
  - destruct event; [|eexists; reflexivity|eexists; reflexivity].
    unfold monitor_worker, bind, send_zmq_push, act.
    destruct (PyStr.contains "outgoing" log_name); eexists; reflexivity.
  - intros H. unfold monitor_worker, bind, send_zmq_push, act. rewrite H.
    eexists. split; [reflexivity|]. repeat split.
Qed.

End RelayClaims.

(** ** The local socket and the constructor *)

Section LocalAndInit.

Context {py : PyLib}.

(** The listener's poller holds the server socket only, so with nothing
    from the server the greenlet turns without reading anything: what
    waits on the local socket stays there. *)
Lemma local_socket_is_not_polled (n : nat) (w : World) :
  server_rx w = [] -> incoming_server_comms n w = Returned tt w.
Proof.
  intros H. unfold incoming_server_comms, linked.
  rewrite (incoming_loop_idle n w H). reflexivity.
Qed.

(** Had the local socket been registered too, a turn would forward its
    message to the relay queue behind the drone's id. *)
Lemma registered_local_socket_forwards (w : World) (data : string)
  (rest : list string) :
  server_rx w = [] ->
  local_rx w = data :: rest ->
  incoming_turn [server_receiving_socket; local_receiving_socket] w =
  Returned tt
    (logged (Push SERVER_RELAY (id (self w) ++ " " ++ data))
       (queued SERVER_RELAY (id (self w) ++ " " ++ data) (taken_local w))).
Proof.
  intros Hs Hl. unfold incoming_turn, poll, bind, waiting, recv.
  cbn [filter]. rewrite Hs, Hl. cbn [filter ready existsb socket_eqb orb].
  rewrite Hl. reflexivity.
Qed.

(** The constructor with fetching on and a fetch that times out or cannot
    connect, everything before having gone well: the drone is built, and
    its [ip] has not been assigned. *)
Lemma init_after_failed_fetch (wd : string) (c general id_ fetch_ip : json)
  (lps : option string) (e : exn) :
  Py.getitem c "general" = inr general ->
  Py.getitem general "id" = inr id_ ->
  Py.getitem general "fetch_ip" = inr fetch_ip ->
  Py.truthy fetch_ip = true ->
  e = Timeout \/ e = ConnectionError ->
  exists d,
    __init__ wd c lps (inr tt) (inr tt) (inl e) = inr d /\ ip d = None.
Proof.
  intros Hg Hi Hf Ht He. unfold __init__. rewrite Hg, Hi, Hf, Ht.
  destruct He as [-> | ->]; eexists; split; reflexivity.
Qed.

(** With fetching off the constructor assigns the empty string. *)
Lemma init_without_fetch (wd : string) (c general id_ fetch_ip : json)
  (lps : option string) (fetched : exn + string) :
  Py.getitem c "general" = inr general ->
  Py.getitem general "id" = inr id_ ->
  Py.getitem general "fetch_ip" = inr fetch_ip ->
  Py.truthy fetch_ip = false ->
  exists d,
    __init__ wd c lps (inr tt) (inr tt) fetched = inr d /\
    ip d = Some EmptyString.
Proof.
  intros Hg Hi Hf Ht. unfold __init__. rewrite Hg, Hi, Hf, Ht.
  eexists; split; reflexivity.
Qed.

End LocalAndInit.

(** ** Runs on sample data *)

Section Runs.

Import Sample.

(** C5 on an input: a message waits on the local socket of a running
    drone, nothing comes from the server; after eight turns of the
    listener the message still waits and the relay queue is still empty. *)
Theorem local_message_is_never_forwarded :
  incoming_server_comms (py := MiniJson.lib) 8
    (inbox running (Some "old") [] ["SESSION_HONEYPOT {}"])
  = Returned tt (inbox running (Some "old") [] ["SESSION_HONEYPOT {}"]) /\
  local_rx
    (final
       (incoming_server_comms (py := MiniJson.lib) 8
          (inbox running (Some "old") [] ["SESSION_HONEYPOT {}"])))
  = ["SESSION_HONEYPOT {}"] /\
  ~ In "A1 SESSION_HONEYPOT {}"
      (relay
         (final
            (incoming_server_comms (py := MiniJson.lib) 8
               (inbox running (Some "old") [] ["SESSION_HONEYPOT {}"])))).
Proof.
  rewrite (local_socket_is_not_polled (py := MiniJson.lib) 8
             (inbox running (Some "old") [] ["SESSION_HONEYPOT {}"]) eq_refl).
  split; [reflexivity|]. split; [reflexivity|].
  intros [].
Qed.

(** C6 on an input: the keys are written, the socket is bound, fetching
    is on and the request times out; the drone is built and its [ip]
    attribute has no value, where the branch for fetching off would have
    assigned the empty string. *)
Theorem failed_fetch_leaves_ip_unassigned :
  exists d,
    __init__ (py := MiniJson.lib) "/var/drone" (cfg (JStr "honeypot") true)
      None (inr tt) (inr tt) (inl Timeout) = inr d /\
    ip d = None /\
    ip d <> Some EmptyString.
Proof.
  eexists. split; [reflexivity|]. split; [reflexivity|discriminate].
Qed.

(** C1 at a sample: the running drone receives its own configuration
    again. *)
Lemma repeated_config_sample :
  exists w',
    incoming_server_comms (py := MiniJson.lib) 1
      (inbox running (Some "old") [config_message honeypot_cfg] [])
    = Returned tt w' /\
    self w' = running /\
    disk w' = Some "old" /\
    commands w' = [] /\
    relay w' = ["PING"] /\
    trace w' = [Push SERVER_RELAY "PING"].
Proof.
  apply (repeated_config_is_only_acknowledged (py := MiniJson.lib)
           (inbox running (Some "old") [config_message honeypot_cfg] [])
           (config_message honeypot_cfg) (MiniJson.write honeypot_cfg) []
           honeypot_cfg);
    vm_compute; reflexivity.
Defined.

(** C1 as stated fails: the document equals the configuration in memory
    and the latch is set, and yet the message puts a PING on the relay
    queue. *)
Lemma repeated_config_still_pings :
  MiniJson.parse (MiniJson.write honeypot_cfg) = Some honeypot_cfg /\
  Py.eqb (config running) honeypot_cfg = true /\
  config_received running = true /\
  relay
    (final
       (incoming_server_comms (py := MiniJson.lib) 1
          (inbox running (Some "old") [config_message honeypot_cfg] [])))
  <> relay (inbox running (Some "old") [config_message honeypot_cfg] []).
Proof.
  repeat split; try (vm_compute; reflexivity).
  vm_compute. discriminate.
Qed.

(** C2 at a sample: a message for the id A10 reaches the drone A1. *)
Lemma rejected_message_sample :
  exists w',
    incoming_server_comms (py := MiniJson.lib) 3
      (inbox running (Some "old") ["A10 CONFIG {}"; "A1 PING now"] [])
    = Exited 1 w' /\
    config (self w') = honeypot_cfg /\
    config_received (self w') = true /\
    disk w' = Some "old" /\
    relay w' = [] /\
    commands w' = [] /\
    wire w' = [] /\
    drone (self w') = None /\
    trace w' = stop_events running.
Proof.
  apply (rejected_message_ends_the_drone (py := MiniJson.lib) 2
           (inbox running (Some "old") ["A10 CONFIG {}"; "A1 PING now"] [])
           "A10 CONFIG {}" ["A1 PING now"]).
  - reflexivity.
  - right. vm_compute. discriminate.
  - right. vm_compute. discriminate.
Defined.

(** C2 as stated fails: the message with the wrong id is not just dropped;
    the process ends with status 1 and the workload that was running is
    stopped. *)
Lemma mismatched_id_stops_the_workload :
  leading_token "A10 CONFIG {}" <> id running /\
  exit_status
    (incoming_server_comms (py := MiniJson.lib) 1
       (inbox running (Some "old") ["A10 CONFIG {}"] [])) = Some 1%Z /\
  drone running = Some (hive honeypot_cfg) /\
  drone
    (self
       (final
          (incoming_server_comms (py := MiniJson.lib) 1
             (inbox running (Some "old") ["A10 CONFIG {}"] [])))) = None /\
  In (WorkloadStop (hive honeypot_cfg))
    (trace
       (final
          (incoming_server_comms (py := MiniJson.lib) 1
             (inbox running (Some "old") ["A10 CONFIG {}"] [])))).
Proof.
  split; [vm_compute; discriminate|].
  repeat split; try (vm_compute; reflexivity).
  vm_compute. right. left. reflexivity.
Qed.

(** C3 at a sample: the drone running a honeypot is told to be a client;
    the honeypot is stopped and a client is started with the new
    document. *)
Lemma new_config_sample :
  exists w',
    incoming_server_comms (py := MiniJson.lib) 1
      (inbox running (Some "old") [config_message client_cfg] [])
    = Returned tt w' /\
    drone (self w')
    = Some {| w_mode := Client; w_work_dir := "/var/drone";
              w_config := client_cfg |} /\
    trace w' =
      [Push SERVER_RELAY "PING";
       FileTruncate "/var/drone/beeswarmcfg.json";
       FileWrite "/var/drone/beeswarmcfg.json" (MiniJson.write client_cfg);
       Unlink (hive honeypot_cfg);
       WorkloadStop (hive honeypot_cfg);
       Kill (hive honeypot_cfg);
       Sleep 2;
       KillTimeout (hive honeypot_cfg) 5;
       FileRead "/var/drone/beeswarmcfg.json";
       Spawn {| w_mode := Client; w_work_dir := "/var/drone";
                w_config := client_cfg |};
       LatchSet] /\
    disk w' = Some (MiniJson.write client_cfg) /\
    MiniJson.parse (MiniJson.write client_cfg) = Some (config (self w')) /\
    config (self w') = client_cfg /\
    config_received (self w') = true.
Proof.
  destruct (new_config_is_written_then_applied (py := MiniJson.lib)
              (inbox running (Some "old") [config_message client_cfg] [])
              (config_message client_cfg) (MiniJson.write client_cfg) []
              client_cfg
              (JObj [("id", JStr "A1"); ("mode", JStr "client");
                     ("fetch_ip", JBool false)])
              (JStr "client"))
    as (w' & Hrun & Hstart & _ & Hdisk & Hread & Hcfg & _ & Hlatch).
  - reflexivity.
  - vm_compute; reflexivity.
  - vm_compute; reflexivity.
  - left. vm_compute; reflexivity.
  - vm_compute; reflexivity.
  - reflexivity.
  - reflexivity.
  - right. discriminate.
  - exists w'. destruct (Hstart Client) as [Hd Ht].
    + right. split; reflexivity.
    + repeat split; assumption.
Defined.

(** C7 at a sample: the running drone is deleted. *)
Lemma delete_sample :
  exists w',
    incoming_server_comms (py := MiniJson.lib) 2
      (inbox running (Some "old") ["A1 DELETE now"] [])
    = Exited 0 w' /\
    (forall wl, drone running = Some wl ->
                trace w' = ([] ++ [WorkloadStop wl])%list) /\
    (drone running = None -> trace w' = []) /\
    self w' = running /\
    disk w' = Some "old" /\
    relay w' = [] /\
    commands w' = [].
Proof.
  apply (delete_stops_the_workload_then_exits (py := MiniJson.lib) 1
           (inbox running (Some "old") ["A1 DELETE now"] [])
           "A1 DELETE now" "now" []).
  - reflexivity.
  - vm_compute; reflexivity.
Defined.

(** C9 at a sample: the first configuration of a fresh drone, no file
    yet. *)
Lemma rewrite_in_place_sample :
  exists w' added,
    incoming_server_comms (py := MiniJson.lib) 1
      (inbox fresh None [config_message honeypot_cfg] [])
    = Returned tt w' /\
    trace w' = ([] ++ added)%list /\
    file_states None added
      = [Some EmptyString; Some (MiniJson.write honeypot_cfg)] /\
    disk w' = Some (MiniJson.write honeypot_cfg).
Proof.
  apply (config_file_is_rewritten_in_place (py := MiniJson.lib)
           (inbox fresh None [config_message honeypot_cfg] [])
           (config_message honeypot_cfg) (MiniJson.write honeypot_cfg) []
           honeypot_cfg (JStr "honeypot")).
  - reflexivity.
  - vm_compute; reflexivity.
  - vm_compute; reflexivity.
  - right. reflexivity.
  - vm_compute; reflexivity.
  - vm_compute; reflexivity.
  - left. reflexivity.
Defined.

(** C9 as stated fails: while a new document replaces the old one, the
    file is for a moment empty, which is neither of the two. *)
Lemma overwrite_shows_an_empty_file :
  ~ atomic_overwrite (Some "old") (Some (MiniJson.write client_cfg))
      (file_states (Some "old")
         (trace
            (final
               (incoming_server_comms (py := MiniJson.lib) 1
                  (inbox running (Some "old") [config_message client_cfg] []))))).
Proof.
  intros A. destruct (A (Some EmptyString)) as [H|H].
  - vm_compute. left. reflexivity.
  - discriminate H.
  - vm_compute in H. discriminate H.
Qed.

(** C4 at a sample: the relay sends a queued PING and a queued IP message
    whose address has a space in it. *)
Lemma relay_sample :
  (exists w',
     outgoing_turn
       {| self := running; disk := None; server_rx := []; local_rx := [];
          relay := ["IP"]; commands := []; wire := []; trace := [] |}
     = Returned tt w' /\
     wire w' = ["IP A1"] /\ relay w' = []) /\
  (exists w',
     outgoing_turn
       {| self := running; disk := None; server_rx := []; local_rx := [];
          relay := ["IP 10.0.0.7 (eth0 up)"]; commands := []; wire := [];
          trace := [] |}
     = Returned tt w' /\
     wire w' = ["IP A1 10.0.0.7 (eth0 up)"] /\ relay w' = []).
Proof.
  split.
  - exact (proj1 (relay_injects_the_id
             {| self := running; disk := None; server_rx := []; local_rx := [];
                relay := ["IP"]; commands := []; wire := []; trace := [] |}
             "IP" [] eq_refl) eq_refl).
  - exact (proj2 (relay_injects_the_id
             {| self := running; disk := None; server_rx := []; local_rx := [];
                relay := ["IP 10.0.0.7 (eth0 up)"]; commands := []; wire := [];
                trace := [] |}
             "IP" [] eq_refl) "10.0.0.7 (eth0 up)" eq_refl).
Defined.

(** C10 at a sample: the monitor of the receiving socket sees a connect. *)
Lemma incoming_monitor_sample :
  exists w',
    monitor_worker (incoming_log_name "tcp://hive:5713") "10.0.0.7"
      EVENT_CONNECTED (world running None) = Returned tt w' /\
    relay w' = ["WANT_CONFIG"] /\
    trace w' = [Push SERVER_RELAY "WANT_CONFIG"] /\
    commands w' = [] /\
    wire w' = [].
Proof.
  exact (proj2 (proj2 (monitor_never_asserts (world running None)
                         (incoming_log_name "tcp://hive:5713") "10.0.0.7"
                         EVENT_CONNECTED)) eq_refl).
Defined.

End Runs.

(** ** More of the command listener *)

Section ListenerPaths.

Context {py : PyLib}.

(** Three fields put back together with the spaces that were cut give the
    message. *)
Lemma fields_rebuild (message a b c : string) :
  fields message = [a; b; c] -> message = a ++ " " ++ b ++ " " ++ c.
Proof.
  unfold fields. cbn [PyStr.split].
  destruct (PyStr.cut message) as [[a' r]|] eqn:E1; [|discriminate].
  destruct (PyStr.cut r) as [[b' r']|] eqn:E2; [|discriminate].
  intros H. injection H as -> -> ->.
  destruct (cut_rebuild _ _ _ E1) as [-> _].
  destruct (cut_rebuild _ _ _ E2) as [-> _]. reflexivity.
Qed.

Lemma handle_other_message (w : World) (message command data : string) :
  fields message = [id (self w); command; data] ->
  command <> Messages.CONFIG ->
  command <> Messages.DRONE_DELETE ->
  handle_server_message message w =
  send_zmq_push SERVER_COMMANDS (PyStr.format2 command data) w.
Proof.
  unfold fields, handle_server_message. intros H Hc Hd. rewrite H.
  unfold bind, get_self, assert. rewrite String.eqb_refl.
  destruct (String.eqb_spec command Messages.CONFIG); [contradiction|].
  destruct (String.eqb_spec command Messages.DRONE_DELETE); [contradiction|].
  reflexivity.
Qed.

(** A command of the server for this drone that is neither CONFIG nor
    DELETE goes to the queue of server commands as it came, less the
    leading id; the drone, the file and the relay queue are not touched. *)
Theorem other_command_is_passed_on (w : World)
  (message command data : string) (rest : list string) :
  server_rx w = message :: rest ->
  fields message = [id (self w); command; data] ->
  command <> Messages.CONFIG ->
  command <> Messages.DRONE_DELETE ->
  exists w' passed,
    incoming_server_comms 1 w = Returned tt w' /\
    commands w' = (commands w ++ [passed])%list /\
    message = id (self w) ++ " " ++ passed /\
    passed = command ++ " " ++ data /\
    relay w' = relay w /\
    self w' = self w /\
    disk w' = disk w /\
    server_rx w' = rest /\
    trace w' = (trace w ++ [Push SERVER_COMMANDS passed])%list.
Proof.
  intros Hrx Hf Hc Hd.
  exists (logged (Push SERVER_COMMANDS (PyStr.format2 command data))
            (queued SERVER_COMMANDS (PyStr.format2 command data)
               (taken_server w))).
  exists (PyStr.format2 command data). split.
  - rewrite (listener_one w message rest Hrx).
    rewrite (handle_other_message (taken_server w) message command data Hf Hc Hd).
    reflexivity.
  - cbn [commands relay self disk server_rx trace logged queued taken_server].
    rewrite Hrx. repeat split. exact (fields_rebuild _ _ _ _ Hf).
Qed.

(** A CONFIG command whose payload [json.loads] rejects is acknowledged
    all the same, and then ends the drone: the PING is on the relay queue,
    the workload is stopped, the process ends with status 1; the file and
    the configuration in memory are as before. *)
Theorem unreadable_config_is_fatal (n : nat) (w : World)
  (message data : string) (rest : list string) :
  server_rx w = message :: rest ->
  fields message = [id (self w); Messages.CONFIG; data] ->
  loads data = None ->
  well_linked (self w) ->
  exists w',
    incoming_server_comms (S n) w = Exited 1 w' /\
    relay w' = (relay w ++ [Messages.PING])%list /\
    disk w' = disk w /\
    config (self w') = config (self w) /\
    config_received (self w') = config_received (self w) /\
    drone (self w') = None /\
    server_rx w' = rest /\
    trace w' =
      (trace w ++ Push SERVER_RELAY Messages.PING :: stop_events (self w))%list.
Proof.
  intros Hrx Hf Hl L.
  exists (after_stop (logged (Push SERVER_RELAY Messages.PING)
                        (queued SERVER_RELAY Messages.PING (taken_server w)))).
  split.
  - rewrite (listener_raised n w
               (logged (Push SERVER_RELAY Messages.PING)
                  (queued SERVER_RELAY Messages.PING (taken_server w)))
               message rest ValueError Hrx).
    + apply on_exception_exits. exact L.
    + rewrite (handle_config_message (taken_server w) message data Hf).
      unfold handle_config, bind, send_zmq_push, act. rewrite Hl. reflexivity.
  - destruct w as [d dk srx lrx rl cm wr tr]. cbn [server_rx] in Hrx. subst srx.
    destruct d as [wd cf f i lps dr dg ip_ cr].
    unfold after_stop, stop_events. cbn [self drone logged queued taken_server].
    destruct dr, dg; tidy; repeat split.
Qed.

End ListenerPaths.

Section ConfigFailures.

Context {py : PyLib}.

Lemma start_drone_without_mode (w : World) (text : string) (c : json)
  (e : exn) :
  disk w = Some text ->
  loads text = Some c ->
  general_mode c = inl e ->
  _start_drone w =
  Raised e (on_self (set_config c) (logged (FileRead (config_file (self w))) w)).
Proof.
  intros Hd Hl Hm. unfold _start_drone. run. rewrite Hd. simpl.
  rewrite Hl. run. rewrite Hm. reflexivity.
Qed.

(** The world in which [_start_drone] gives up on a document that has no
    mode to read: written, the old workload stopped, read back. *)
Lemma handle_config_without_mode (w : World) (data : string) (c : json)
  (e : exn) :
  loads data = Some c ->
  Py.neqb (config (self w)) c = true \/ config_received (self w) = false ->
  loads (dumps c) = Some c ->
  general_mode c = inl e ->
  well_linked (self w) ->
  exists w1,
    handle_config data w = Raised e w1 /\
    well_linked (self w1) /\
    relay w1 = (relay w ++ [Messages.PING])%list /\
    disk w1 = Some (dumps c) /\
    config (self w1) = c /\
    config_received (self w1) = config_received (self w) /\
    drone (self w1) = None /\
    drone_greenlet (self w1) = drone_greenlet (self w) /\
    server_rx w1 = server_rx w /\
    trace w1 =
      (trace w ++
       [Push SERVER_RELAY Messages.PING;
        FileTruncate (config_file (self w));
        FileWrite (config_file (self w)) (dumps c)] ++
       stop_events (self w) ++ [FileRead (config_file (self w))])%list.
Proof.
  intros Hl Hnew Hrt Hm L. unfold handle_config. run. rewrite Hl.
  assert (Hc : Py.neqb (config (self w)) c || negb (config_received (self w)) = true).
  { destruct Hnew as [H|H]; rewrite H; [reflexivity|apply orb_true_r]. }
  cbn [self logged queued stored on_self]. rewrite Hc. run.
  rewrite stop_returns by exact L.
  erewrite start_drone_without_mode;
    [ | rewrite disk_after_stop; reflexivity | exact Hrt | exact Hm ].
  eexists. split; [reflexivity|].
  clear - L. destruct w as [d dk srx lrx rl cm wr tr].
  destruct d as [wd cf f i lps dr dg ip_ cr].
  unfold after_stop, stop_events, well_linked in *.
  cbn [self drone drone_greenlet logged queued stored on_self set_config
       config_file] in *.
  destruct dr, dg; tidy; repeat split; try (left; reflexivity).
Qed.

(** A new configuration document without [general] or without [mode] in
    it is found out only after it has been written: the file holds it,
    the old workload is stopped, the configuration in memory is the new
    document, the latch is as before, and the process ends with status
    1 after a second call of [stop]. *)
Theorem config_without_mode_is_written_then_fatal (n : nat) (w : World)
  (message data : string) (rest : list string) (c : json) (e : exn) :
  server_rx w = message :: rest ->
  fields message = [id (self w); Messages.CONFIG; data] ->
  loads data = Some c ->
  Py.neqb (config (self w)) c = true \/ config_received (self w) = false ->
  loads (dumps c) = Some c ->
  general_mode c = inl e ->
  well_linked (self w) ->
  exists w',
    incoming_server_comms (S n) w = Exited 1 w' /\
    disk w' = Some (dumps c) /\
    config (self w') = c /\
    config_received (self w') = config_received (self w) /\
    drone (self w') = None /\
    server_rx w' = rest /\
    trace w' =
      (trace w ++
       [Push SERVER_RELAY Messages.PING;
        FileTruncate (config_file (self w));
        FileWrite (config_file (self w)) (dumps c)] ++
       stop_events (self w) ++ [FileRead (config_file (self w))] ++
       restop_events (self w))%list.
Proof.
  intros Hrx Hf Hl Hnew Hrt Hm L.
  destruct (handle_config_without_mode (taken_server w) data c e Hl Hnew Hrt Hm L)
    as (w1 & Hrun & L1 & _ & Hdisk & Hcfg & Hlatch & Hdr & Hg & Hsrv & Htr).
  exists (after_stop w1). split.
  - rewrite (listener_raised n w w1 message rest e Hrx).
    + apply on_exception_exits. exact L1.
    + rewrite (handle_config_message (taken_server w) message data Hf).
      exact Hrun.
  - unfold after_stop, stop_events, restop_events. rewrite Hdr.
    cbn [self disk server_rx trace logged_all] in *.
    rewrite Hdr, Hg, Hdisk, Hcfg, Hlatch, Hsrv, Htr.
    cbn [self server_rx trace taken_server]. rewrite Hrx.
    repeat split.
    unfold stop_events.
    destruct (drone (self w)), (drone_greenlet (self w));
      repeat rewrite <- app_assoc; reflexivity.
Qed.

End ConfigFailures.

(** ** Starting and stopping the workload *)

Section StartStop.

Context {py : PyLib}.

(** [_start_drone] on a file that reads as a document with a mode: the
    document becomes the configuration; a workload is built exactly for
    the modes honeypot and client, of that class and with that document;
    for every other mode nothing is started and none is reported, and the
    workload attribute is left as it was. *)
Theorem start_drone_follows_the_mode (w : World) (text : string) (c m : json) :
  disk w = Some text ->
  loads text = Some c ->
  general_mode c = inr m ->
  exists w',
    _start_drone w = Returned tt w' /\
    config (self w') = c /\
    disk w' = disk w /\
    (forall cls,
       (m = JStr "honeypot" /\ cls = Honeypot) \/
       (m = JStr "client" /\ cls = Client) ->
       drone (self w')
       = Some {| w_mode := cls; w_work_dir := work_dir (self w); w_config := c |} /\
       drone_greenlet (self w') = drone (self w') /\
       trace w' =
         (trace w ++
          [FileRead (config_file (self w));
           Spawn {| w_mode := cls; w_work_dir := work_dir (self w);
                    w_config := c |}])%list) /\
    (m <> JStr "honeypot" -> m <> JStr "client" ->
     drone (self w') = drone (self w) /\
     drone_greenlet (self w') = drone_greenlet (self w) /\
     trace w' = (trace w ++ [FileRead (config_file (self w))])%list).
Proof.
  intros Hd Hl Hm. rewrite (start_drone_returns w text c m Hd Hl Hm).
  eexists. split; [reflexivity|].
  destruct (select_mode m) as [k|] eqn:S.
  - unfold started. cbn [self config disk drone drone_greenlet trace on_self
                         logged set_config set_drone set_drone_greenlet].
    split; [reflexivity|]. split; [reflexivity|]. split.
    + intros cls H. apply select_mode_class in H. rewrite S in H.
      injection H as ->. rewrite <- app_assoc. repeat split.
    + intros N1 N2. apply select_mode_class in S.
      destruct S as [[-> _]|[-> _]]; contradiction.
  - unfold started. cbn [self config disk drone drone_greenlet trace on_self
                         logged set_config].
    split; [reflexivity|]. split; [reflexivity|]. split.
    + intros cls H. apply select_mode_class in H. rewrite S in H. discriminate.
    + intros _ _. repeat split.
Qed.

(** [stop] called again right after [stop]: the workload is gone after
    the first call and stays gone; the second call does not stop or unlink
    anything, it waits and kills the greenlet of old once more, because
    the greenlet attribute is never cleared. *)
Theorem stop_again_only_kills_the_greenlet (w : World) :
  well_linked (self w) ->
  exists w1 w2,
    stop w = Returned tt w1 /\
    stop w1 = Returned tt w2 /\
    drone (self w1) = None /\
    drone (self w2) = None /\
    drone_greenlet (self w2) = drone_greenlet (self w) /\
    trace w1 = (trace w ++ stop_events (self w))%list /\
    trace w2 = (trace w1 ++ restop_events (self w))%list.
Proof.
  intros L. exists (after_stop w), (after_stop (after_stop w)).
  split; [exact (stop_returns w L)|].
  split; [exact (stop_returns _ (after_stop_well_linked w))|].
  destruct w as [d dk srx lrx rl cm wr tr].
  destruct d as [wd cf f i lps dr dg ip_ cr].
  unfold after_stop, stop_events, restop_events.
  cbn [self drone drone_greenlet].
  destruct dr, dg; tidy; repeat split.
Qed.

End StartStop.

(** ** More of the relay and the monitors *)

Section RelayOrder.

Context {py : PyLib}.

Lemma outgoing_loop_returns (n : nat) :
  forall w,
    exists w',
      outgoing_loop n w = Returned tt w' /\
      wire w' =
        (wire w ++ map (relayed (id (self w))) (firstn n (relay w)))%list /\
      relay w' = skipn n (relay w) /\
      self w' = self w /\
      disk w' = disk w /\
      commands w' = commands w /\
      server_rx w' = server_rx w /\
      local_rx w' = local_rx w.
Proof.
  induction n as [|n IH]; intros w.
  - exists w. cbn. rewrite app_nil_r. repeat split.
  - cbn [outgoing_loop]. unfold bind.
    destruct (relay w) as [|m q] eqn:R.
    + rewrite (outgoing_turn_idle w R).
      destruct (IH w) as (w' & Hrun & Hw & Hr & Hrest).
      exists w'. split; [exact Hrun|]. rewrite Hw, Hr, R.
      rewrite firstn_nil, skipn_nil. repeat split; apply Hrest.
    + rewrite (outgoing_turn_sends w m q R).
      destruct (IH (logged (WireSend (relayed (id (self w)) m))
                      (sent (relayed (id (self w)) m) (taken_relay w))))
        as (w' & Hrun & Hw & Hr & Hs & Hd & Hc & Hsr & Hlr).
      exists w'. split; [exact Hrun|].
      cbn [wire relay self disk commands server_rx local_rx logged sent
           taken_relay] in *.
      rewrite R in *. cbn [tl firstn skipn map] in *.
      rewrite Hw, Hr, <- app_assoc. repeat split; assumption.
Qed.

(** The relay, for any number of turns: it never fails and never ends the
    process; it sends the oldest messages of the queue, as many as it has
    turns, in the order they were queued, each with the id put in, and
    leaves the others queued; it touches nothing else. *)
Theorem relay_sends_in_queue_order (n : nat) (w : World) :
  exists w',
    outgoing_server_comms n w = Returned tt w' /\
    wire w' =
      (wire w ++ map (relayed (id (self w))) (firstn n (relay w)))%list /\
    relay w' = skipn n (relay w) /\
    self w' = self w /\
    disk w' = disk w /\
    commands w' = commands w /\
    server_rx w' = server_rx w /\
    local_rx w' = local_rx w.
Proof.
  destruct (outgoing_loop_returns n w) as (w' & Hrun & H).
  exists w'. split; [|exact H].
  unfold outgoing_server_comms, linked. rewrite Hrun. reflexivity.
Qed.

(** What the relay sends can be taken apart again: cut at the first two
    spaces, the sent text gives the topic of the queued message, then the
    drone's id, then the payload if the queued message had one. *)
Theorem sent_message_has_the_id_second (own_id message sent_text : string) :
  PyStr.no_space own_id = true ->
  inject_id own_id message = inr sent_text ->
  exists topic payload,
    PyStr.split message 1 = topic :: payload /\
    PyStr.split sent_text 2 = topic :: own_id :: payload.
Proof.
  intros Hid. rewrite inject_id_relayed. intros H. injection H as <-.
  unfold relayed. cbn [PyStr.split].
  destruct (PyStr.cut message) as [[topic data]|] eqn:E.
  - exists topic, [data]. split; [reflexivity|].
    destruct (cut_rebuild _ _ _ E) as [_ Ht].
    rewrite (cut_payload topic _ Ht). rewrite (cut_payload own_id data Hid).
    reflexivity.
  - exists message, []. split; [reflexivity|].
    assert (Hm : PyStr.no_space message = true).
    { destruct (token_or_payload message) as [T|(t & p & -> & T)]; [exact T|].
      rewrite (cut_payload t p T) in E. discriminate. }
    rewrite (cut_payload message own_id Hm). rewrite (cut_token own_id Hid).
    reflexivity.
Qed.

End RelayOrder.

Section MonitorNames.

(** A word none of whose letters is the first letter of what follows
    cannot begin before the join and end after it. *)
Lemma prefix_before_other (n u s : string) (c : ascii) :
  (forall a, In a (list_ascii_of_string n) -> a <> c) ->
  n <> EmptyString ->
  String.prefix n (u ++ String c s) = String.prefix n u.
Proof.
  revert u. induction n as [|a n IH]; intros u Hn Hne; [contradiction|].
  destruct u as [|b u]; cbn [append String.prefix].
  - destruct (ascii_dec a c) as [E|_]; [|reflexivity].
    exfalso. apply (Hn a); [left; reflexivity|exact E].
  - destruct (ascii_dec a b) as [_|_]; [|reflexivity].
    destruct n as [|a' n'].
    + destruct u; reflexivity.
    + apply IH; [|discriminate].
      intros x Hx. apply Hn. right. exact Hx.
Qed.

Lemma contains_before_other (n u s : string) (c : ascii) :
  (forall a, In a (list_ascii_of_string n) -> a <> c) ->
  n <> EmptyString ->
  PyStr.contains n (String c s) = false ->
  PyStr.contains n (u ++ String c s) = PyStr.contains n u.
Proof.
  intros Hn Hne Hs. induction u as [|b u IH].
  - cbn [append]. rewrite Hs. destruct n; [contradiction|reflexivity].
  - change (String b u ++ String c s) with (String b (u ++ String c s)).
    cbn [PyStr.contains]. rewrite IH.
    change (String b (u ++ String c s)) with (String b u ++ String c s).
    rewrite (prefix_before_other n (String b u) s c Hn Hne). reflexivity.
Qed.

(** The log name of the receiving socket's monitor has the word outgoing
    in it exactly when the url has. *)
Lemma incoming_log_name_outgoing (url : string) :
  PyStr.contains "outgoing" (incoming_log_name url)
  = PyStr.contains "outgoing" url.
Proof.
  unfold incoming_log_name.
  change ("incomming socket (" ++ url ++ ").")
    with ("incomming socket (" ++ (url ++ String ")" ".")).
  cbn [append PyStr.contains String.prefix]. cbn.
  apply contains_before_other.
  - intros a Ha. cbn in Ha.
    repeat (destruct Ha as [<-|Ha]; [discriminate|]). contradiction.
  - discriminate.
  - reflexivity.
Qed.

(** The monitor of the receiving socket on a connect: WANT_CONFIG always;
    PING and IP as well exactly when the command url has the word outgoing
    in it, since the test reads the whole log name. *)
Theorem incoming_monitor_reads_the_url (w : World) (url own_ip : string) :
  exists w',
    monitor_worker (incoming_log_name url) own_ip EVENT_CONNECTED w
    = Returned tt w' /\
    relay w' =
      (relay w ++
       if PyStr.contains "outgoing" url
       then [Messages.DRONE_WANT_CONFIG; Messages.PING;
             (Messages.IP ++ " " ++ own_ip)%string]
       else [Messages.DRONE_WANT_CONFIG])%list /\
    self w' = self w /\
    commands w' = commands w /\
    wire w' = wire w.
Proof.
  unfold monitor_worker, bind, send_zmq_push, act.
  rewrite incoming_log_name_outgoing.
  destruct (PyStr.contains "outgoing" url); eexists;
    (split; [reflexivity|]);
    cbn [relay self commands wire logged queued];
    repeat rewrite <- app_assoc; repeat split.
Qed.

End MonitorNames.

(** ** What no run changes *)

Section Steady.

Context {py : PyLib}.

Lemma triple_bind {A B : Type} (P : World -> Prop) (c : M A) (k : A -> M B)
  (Q : A -> World -> Prop) (Q' : B -> World -> Prop) (X : World -> Prop)
  (E : Z -> World -> Prop) :
  triple P c Q X E ->
  (forall a, triple (Q a) (k a) Q' X E) ->
  triple P (bind c k) Q' X E.
Proof.
  intros Hc Hk w Hw. unfold bind. specialize (Hc w Hw).
  destruct (c w) as [a w'|e w'|s w']; [exact (Hk a w' Hc)|exact Hc|exact Hc].
Qed.

Lemma steady_bind {A B : Type} (P : World -> Prop) (E : Z -> World -> Prop)
  (c : M A) (k : A -> M B) :
  triple P c (fun _ => P) P E ->
  (forall a, triple P (k a) (fun _ => P) P E) ->
  triple P (bind c k) (fun _ => P) P E.
Proof. intros Hc Hk. exact (triple_bind P c k _ _ P E Hc Hk). Qed.

Lemma triple_final {A : Type} (P : World -> Prop) (c : M A) :
  always P c -> forall w, P w -> P (final (c w)).
Proof.
  intros H w Hw. specialize (H w Hw).
  destruct (c w); exact H.
Qed.

(** A greenlet body with the handler linked, for a property that the
    body keeps until it ends and the handler keeps too. *)
Lemma triple_linked (P : World -> Prop) (E : Z -> World -> Prop)
  (body : M unit) :
  triple P body (fun _ => P) P E ->
  triple P on_exception (fun _ => P) (fun _ => False) E ->
  triple P (linked body) (fun _ => P) (fun _ => False) E.
Proof.
  intros Hb Hh w Hw. unfold linked. specialize (Hb w Hw).
  destruct (body w) as [a w'|e w'|s w']; [exact Hb|exact (Hh w' Hb)|exact Hb].
Qed.

Lemma always_linked (P : World -> Prop) (body : M unit) :
  always P body -> always P on_exception -> always P (linked body).
Proof.
  intros Hb Hh w Hw. unfold linked. specialize (Hb w Hw).
  destruct (body w) as [a w'|e w'|s w']; [exact Hb|exact (Hh w' Hb)|exact Hb].
Qed.

End Steady.

(** One step of a proof that a computation keeps a property which its
    single effects keep by what they are: through a bind, into a branch,
    or closing a single effect. *)
Ltac steady_step :=
  first
    [ assumption
    | apply always_linked
    | apply steady_bind; [|intros ?]
    | match goal with
      | |- triple _ (match ?x with _ => _ end) _ _ _ => destruct x
      | |- triple _ (if ?x then _ else _) _ _ _ => destruct x
      | |- always _ (match ?x with _ => _ end) => destruct x
      | |- always _ (if ?x then _ else _) => destruct x
      end
    | let w := fresh "w" in
      let H := fresh "H" in
      unfold always, triple; intros w H;
      cbv [ret raise sys_exit act get_self modify_self emit eval assert
           send_zmq_push wire_send open_w file_write file_read recv poll
           relay_poll];
      repeat match goal with
             | |- context [match ?x with _ => _ end] =>
                 lazymatch x with
                 | context [match _ with _ => _ end] => fail
                 | _ => destruct x
                 end
             end;
      first [exact H | reflexivity | left; reflexivity | right; reflexivity] ].

Ltac steady := unfold always; repeat steady_step.

Section Frames.

Context {py : PyLib}.

Lemma always_incoming_loop (P : World -> Prop) (n : nat) :
  always P (incoming_turn incoming_poller) -> always P (incoming_loop n).
Proof.
  intros H. induction n as [|n IH]; cbn [incoming_loop]; steady.
Qed.

(** The attributes given at construction are never assigned again: after
    any number of turns of the command listener, however they end, the
    drone has the working directory, the file name, the id, the local
    socket path and the ip it had. *)
Theorem listener_keeps_the_identity (n : nat) (w : World) :
  work_dir (self (final (incoming_server_comms n w))) = work_dir (self w) /\
  config_file (self (final (incoming_server_comms n w))) = config_file (self w) /\
  id (self (final (incoming_server_comms n w))) = id (self w) /\
  local_pull_socket (self (final (incoming_server_comms n w)))
  = local_pull_socket (self w) /\
  ip (self (final (incoming_server_comms n w))) = ip (self w).
Proof.
  assert (F : forall (A : Type) (g : Drone -> A),
             (forall c d, g (set_config c d) = g d) ->
             (forall o d, g (set_drone o d) = g d) ->
             (forall o d, g (set_drone_greenlet o d) = g d) ->
             (forall d, g (set_config_received d) = g d) ->
             g (self (final (incoming_server_comms n w))) = g (self w)).
  { intros A g G1 G2 G3 G4.
    apply (triple_final (fun x => g (self x) = g (self w))); [|reflexivity].
    unfold incoming_server_comms.
    assert (S1 : forall c, always (fun x => g (self x) = g (self w))
                             (modify_self (set_config c))).
    { intros c x H. cbn. rewrite G1. exact H. }
    assert (S2 : forall o, always (fun x => g (self x) = g (self w))
                             (modify_self (set_drone o))).
    { intros o x H. cbn. rewrite G2. exact H. }
    assert (S3 : forall o, always (fun x => g (self x) = g (self w))
                             (modify_self (set_drone_greenlet o))).
    { intros o x H. cbn. rewrite G3. exact H. }
    assert (S4 : always (fun x => g (self x) = g (self w))
                   (modify_self set_config_received)).
    { intros x H. cbn. rewrite G4. exact H. }
    apply always_linked.
    - apply always_incoming_loop.
      unfold incoming_turn, handle_server_message, handle_local_message,
        handle_config, _handle_delete, _start_drone, stop.
      repeat first [apply S1 | apply S2 | apply S3 | apply S4 | steady_step].
    - unfold on_exception, stop.
      repeat first [apply S1 | apply S2 | apply S3 | apply S4 | steady_step]. }
  repeat split; apply F; reflexivity.
Qed.

(** The latch is never cleared: once a configuration has been received,
    no turn of the command listener, however it ends, leaves the latch
    unset. *)
Theorem latch_is_never_cleared (n : nat) (w : World) :
  config_received (self w) = true ->
  config_received (self (final (incoming_server_comms n w))) = true.
Proof.
  apply (triple_final (fun x => config_received (self x) = true)).
  unfold incoming_server_comms. apply always_linked.
  - apply always_incoming_loop.
    unfold incoming_turn, handle_server_message, handle_local_message,
      handle_config, _handle_delete, _start_drone, stop.
    steady.
  - unfold on_exception, stop. steady.
Qed.

(** The command listener never sends to the server itself and never
    takes a message off the local socket: after any number of turns the
    messages sent and the messages waiting on the local socket are what
    they were. *)
Theorem listener_leaves_wire_and_local_socket (n : nat) (w : World) :
  wire (final (incoming_server_comms n w)) = wire w /\
  local_rx (final (incoming_server_comms n w)) = local_rx w.
Proof.
  apply (triple_final (fun x => wire x = wire w /\ local_rx x = local_rx w));
    [|split; reflexivity].
  unfold incoming_server_comms. apply always_linked.
  - apply always_incoming_loop. intros x Hx.
    destruct (server_rx x) as [|m rest] eqn:R.
    + rewrite (incoming_turn_idle x R). exact Hx.
    + rewrite (incoming_turn_server x m rest R).
      assert (T : always (fun y => wire y = wire w /\ local_rx y = local_rx w)
                    (handle_server_message m)).
      { unfold handle_server_message, handle_config, _handle_delete,
          _start_drone, stop. steady. }
      exact (T (taken_server x) Hx).
  - unfold on_exception, stop. steady.
Qed.

(** Every CONFIG command addressed to the drone is acknowledged once:
    whatever the payload is and however the turn ends, the turn leaves
    exactly one more message on the relay queue, a PING, and nothing more
    on the queue of server commands. *)
Theorem every_config_is_acknowledged_once (w : World)
  (message data : string) (rest : list string) :
  server_rx w = message :: rest ->
  fields message = [id (self w); Messages.CONFIG; data] ->
  relay (final (incoming_server_comms 1 w))
  = (relay w ++ [Messages.PING])%list /\
  commands (final (incoming_server_comms 1 w)) = commands w.
Proof.
  intros Hrx Hf.
  pose (P := fun x : World =>
               relay x = (relay w ++ [Messages.PING])%list /\
               commands x = commands w).
  assert (T : always P
                (match loads data with
                 | None => raise ValueError
                 | Some c =>
                     bind get_self (fun d =>
                       if Py.neqb (config d) c || negb (config_received d)
                       then
                         bind (modify_self (set_config c)) (fun _ =>
                         bind (open_w (config_file d)) (fun _ =>
                         bind (file_write (config_file d) (dumps c)) (fun _ =>
                         bind stop (fun _ =>
                         bind _start_drone (fun _ =>
                         bind (modify_self set_config_received) (fun _ =>
                         emit LatchSet))))))
                       else ret tt)
                 end)).
  { unfold _start_drone, stop, P. steady. }
  assert (Hh : always P on_exception).
  { unfold on_exception, stop, P. steady. }
  change (P (final (incoming_server_comms 1 w))).
  rewrite (listener_one w message rest Hrx).
  rewrite (handle_config_message (taken_server w) message data Hf).
  unfold handle_config. unfold bind at 1. unfold send_zmq_push at 1, act at 1.
  match goal with
  | |- context [final (match ?r ?x with _ => _ end)] =>
      assert (R := T x); set (run := r x) in *
  end.
  assert (Px : P (logged (Push SERVER_RELAY Messages.PING)
                    (queued SERVER_RELAY Messages.PING (taken_server w)))).
  { split; reflexivity. }
  specialize (R Px).
  destruct run as [a w1|e w1|s w1]; cbn [final].
  - exact R.
  - exact (triple_final P on_exception Hh w1 R).
  - exact R.
Qed.

End Frames.

(** ** How the listener ends, and the workloads it runs *)

Section Ends.

Context {py : PyLib}.

Lemma stop_keeps_link (E : Z -> World -> Prop) :
  triple (fun x => well_linked (self x)) stop
    (fun _ x => well_linked (self x)) (fun x => well_linked (self x)) E.
Proof.
  intros w L. rewrite (stop_returns w L). apply after_stop_well_linked.
Qed.

Lemma spawn_keeps_link (E : Z -> World -> Prop) (g : workload) :
  triple (fun x => well_linked (self x))
    (bind (modify_self (set_drone (Some g)))
       (fun _ => bind (emit (Spawn g))
          (fun _ => modify_self (set_drone_greenlet (Some g)))))
    (fun _ x => well_linked (self x)) (fun x => well_linked (self x)) E.
Proof. intros w L. right. discriminate. Qed.

(** No exception leaves the command listener, and it ends the process
    with no other status than 0 and 1: from a drone whose workload has its
    greenlet, any number of turns either return, the link still there, or
    end the process with status 0 or status 1. *)
Theorem listener_ends_by_exit_only (n : nat) (w : World) :
  well_linked (self w) ->
  match incoming_server_comms n w with
  | Returned _ w' => well_linked (self w')
  | Raised _ _ => False
  | Exited status _ => status = 0%Z \/ status = 1%Z
  end.
Proof.
  revert w.
  change (triple (fun x => well_linked (self x)) (incoming_server_comms n)
            (fun _ x => well_linked (self x)) (fun _ => False)
            (fun status _ => status = 0%Z \/ status = 1%Z)).
  unfold incoming_server_comms. apply triple_linked.
  - induction n as [|n IH]; cbn [incoming_loop].
    + steady.
    + unfold incoming_turn, handle_server_message, handle_local_message,
        handle_config, _handle_delete, _start_drone.
      repeat first [ apply stop_keeps_link | apply spawn_keeps_link
                   | steady_step ].
  - intros x L. rewrite (on_exception_exits x L). right. reflexivity.
Qed.

Lemma alive_app (t es : list event) (n : nat) :
  alive n (t ++ es) =
  match alive n t with
  | Some k => alive k es
  | None => None
  end.
Proof.
  revert n. induction t as [|e t IH]; intros n; [reflexivity|].
  destruct e; cbn [alive app]; try apply IH; destruct n; try apply IH;
    reflexivity.
Qed.

Lemma accounted_one_at_a_time (w : World) :
  accounted w -> one_at_a_time (trace w).
Proof.
  intros [_ A]. exists (held (self w)). split; [exact A|].
  unfold held. destruct (drone (self w)); lia.
Qed.

Lemma stop_accounted (w : World) :
  accounted w ->
  accounted (after_stop w) /\ drone (self (after_stop w)) = None.
Proof.
  intros [L A]. destruct w as [d dk srx lrx rl cm wr tr].
  destruct d as [wd cf f i lps dr dg ip_ cr].
  unfold accounted, after_stop, stop_events, held, well_linked in *.
  cbn [self drone drone_greenlet trace] in *.
  destruct dr, dg; tidy; rewrite alive_app, A; repeat split;
    try (left; reflexivity).
  destruct L as [L|L]; [discriminate|contradiction].
Qed.

Lemma start_drone_accounted :
  triple (fun x => accounted x /\ drone (self x) = None) _start_drone
    (fun _ => accounted) accounted (fun _ x => one_at_a_time (trace x)).
Proof.
  intros w [[L A] D]. unfold held in A. rewrite D in A.
  assert (N : well_linked (self w) /\
              alive 0 (trace w ++ [FileRead (config_file (self w))]) = Some 0).
  { split; [exact L|]. rewrite alive_app, A. reflexivity. }
  unfold _start_drone, bind, get_self, file_read.
  destruct (disk w) as [text|].
  - destruct (loads text) as [c|].
    + unfold modify_self, act, eval.
      destruct (general_mode c) as [e|m].
      * unfold raise, accounted, held.
        cbn [self trace drone drone_greenlet on_self logged set_config].
        rewrite D. exact N.
      * unfold ret. destruct (select_mode m).
        -- unfold emit, act, accounted, held.
           cbn [self trace drone drone_greenlet on_self logged set_config
                set_drone set_drone_greenlet].
           split; [right; discriminate|].
           rewrite alive_app. destruct N as [_ ->]. reflexivity.
        -- unfold accounted, held.
           cbn [self trace drone drone_greenlet on_self logged set_config].
           rewrite D. exact N.
    + unfold raise, accounted, held.
      cbn [self trace drone drone_greenlet logged]. rewrite D. exact N.
  - unfold accounted, held. rewrite D. split; assumption.
Qed.

(** An event that starts or stops no workload leaves the account as it
    is. *)
Lemma accounted_logged (e : event) (w : World) :
  match e with
  | Spawn _ => False
  | WorkloadStop _ => False
  | _ => True
  end ->
  accounted w -> accounted (logged e w).
Proof.
  intros Ne [L A]. split; [exact L|].
  cbn [trace self logged]. rewrite alive_app, A.
  destruct e; try contradiction; reflexivity.
Qed.

Lemma emit_accounted (e : event) :
  match e with
  | Spawn _ => False
  | WorkloadStop _ => False
  | _ => True
  end ->
  triple accounted (emit e) (fun _ => accounted) accounted exits.
Proof. intros Ne w A. exact (accounted_logged e w Ne A). Qed.

Lemma push_accounted (name : SocketNames) (message : string) :
  triple accounted (send_zmq_push name message) (fun _ => accounted)
    accounted exits.
Proof.
  intros w A.
  exact (accounted_logged (Push name message) (queued name message w) I A).
Qed.

Lemma open_w_accounted (path : string) :
  triple accounted (open_w path) (fun _ => accounted) accounted exits.
Proof.
  intros w A.
  exact (accounted_logged (FileTruncate path) (stored _ w) I A).
Qed.

Lemma file_write_accounted (path text : string) :
  triple accounted (file_write path text) (fun _ => accounted) accounted exits.
Proof.
  intros w A.
  exact (accounted_logged (FileWrite path text) (stored _ w) I A).
Qed.

(** Stopping and then starting afresh keeps the account, whatever comes
    after keeps it. *)
Lemma restart_accounted {A : Type} (k : unit -> M A) :
  (forall a, triple accounted (k a) (fun _ => accounted) accounted exits) ->
  triple accounted (bind stop (fun _ => bind _start_drone k))
    (fun _ => accounted) accounted exits.
Proof.
  intros Hk w Hw. unfold bind at 1.
  rewrite (stop_returns w (proj1 Hw)).
  destruct (stop_accounted w Hw) as [Ha Hd].
  exact (triple_bind _ _ k _ _ _ _ start_drone_accounted Hk (after_stop w)
           (conj Ha Hd)).
Qed.

Lemma handle_delete_accounted :
  triple accounted _handle_delete (fun _ => accounted) accounted exits.
Proof.
  intros w [L A]. rewrite handle_delete_exits. unfold exits, delete_events.
  cbn [trace logged_all]. unfold held in A.
  destruct (drone (self w)).
  - exists 0. rewrite alive_app, A. split; [reflexivity|lia].
  - exists 0. rewrite app_nil_r. split; [exact A|lia].
Qed.

Lemma on_exception_accounted :
  triple accounted on_exception (fun _ => accounted) (fun _ => False) exits.
Proof.
  intros w Hw. rewrite (on_exception_exits w (proj1 Hw)).
  apply accounted_one_at_a_time. apply (stop_accounted w Hw).
Qed.

(** Workloads run one at a time: from a world whose trace accounts for
    the workload the drone holds, any number of turns of the command
    listener, however they end, leave a trace in which no workload was
    started while another was alive and none was stopped that was not
    running. *)
Theorem workloads_run_one_at_a_time (n : nat) (w : World) :
  accounted w ->
  one_at_a_time (trace (final (incoming_server_comms n w))).
Proof.
  intros Hw.
  assert (T : triple accounted (incoming_server_comms n)
                (fun _ => accounted) (fun _ => False) exits).
  { unfold incoming_server_comms. apply triple_linked.
    - induction n as [|n IH]; cbn [incoming_loop].
      + steady.
      + unfold incoming_turn, handle_server_message, handle_local_message,
          handle_config.
        repeat first
          [ apply restart_accounted; intros ?
          | apply handle_delete_accounted
          | apply push_accounted
          | apply open_w_accounted
          | apply file_write_accounted
          | apply emit_accounted; exact I
          | steady_step ].
    - exact on_exception_accounted. }
  specialize (T w Hw).
  destruct (incoming_server_comms n w) as [a w'|e w'|s w']; cbn [final].
  - exact (accounted_one_at_a_time w' T).
  - contradiction.
  - exact T.
Qed.

End Ends.

(** ** What only one command does *)

Section Commands.

Context {py : PyLib}.

(** The handler on a message that is not the given command, for a
    property every other path keeps: the branch of that command is not
    taken. *)
Lemma handle_without_config (P : World -> Prop) (E : Z -> World -> Prop)
  (m : string) :
  is_command Messages.CONFIG m = false ->
  (forall e, triple P (raise (A := unit) e) (fun _ => P) P E) ->
  triple P get_self (fun _ => P) P E ->
  (forall b, triple P (assert b) (fun _ => P) P E) ->
  triple P _handle_delete (fun _ => P) P E ->
  (forall text, triple P (send_zmq_push SERVER_COMMANDS text) (fun _ => P) P E) ->
  triple P (handle_server_message m) (fun _ => P) P E.
Proof.
  unfold is_command, fields, handle_server_message. intros Hc Hr Hg Ha Hd Hp.
  destruct (PyStr.split m 2) as [|a [|b [|c [|x l]]]]; try apply Hr.
  rewrite Hc. apply steady_bind; [exact Hg|intros d].
  apply steady_bind; [apply Ha|intros _].
  destruct (String.eqb b Messages.DRONE_DELETE); [exact Hd|apply Hp].
Qed.

Lemma handle_without_delete (P : World -> Prop) (E : Z -> World -> Prop)
  (m : string) :
  is_command Messages.DRONE_DELETE m = false ->
  (forall e, triple P (raise (A := unit) e) (fun _ => P) P E) ->
  triple P get_self (fun _ => P) P E ->
  (forall b, triple P (assert b) (fun _ => P) P E) ->
  (forall data, triple P (handle_config data) (fun _ => P) P E) ->
  (forall text, triple P (send_zmq_push SERVER_COMMANDS text) (fun _ => P) P E) ->
  triple P (handle_server_message m) (fun _ => P) P E.
Proof.
  unfold is_command, fields, handle_server_message. intros Hc Hr Hg Ha Hd Hp.
  destruct (PyStr.split m 2) as [|a [|b [|c [|x l]]]]; try apply Hr.
  rewrite Hc. apply steady_bind; [exact Hg|intros d].
  apply steady_bind; [apply Ha|intros _].
  destruct (String.eqb b Messages.CONFIG); [apply Hd|apply Hp].
Qed.

(** Only a CONFIG command changes the configuration: if none of the
    messages waiting from the server is a CONFIG command, then after any
    number of turns, however they end, the configuration file, the
    configuration in memory and the latch are what they were. *)
Theorem only_config_changes_the_configuration (n : nat) (w : World) :
  (forall m, In m (server_rx w) -> is_command Messages.CONFIG m = false) ->
  disk (final (incoming_server_comms n w)) = disk w /\
  config (self (final (incoming_server_comms n w))) = config (self w) /\
  config_received (self (final (incoming_server_comms n w)))
  = config_received (self w).
Proof.
  intros Hw.
  pose (P := fun x : World =>
               (forall m, In m (server_rx x) ->
                          is_command Messages.CONFIG m = false) /\
               disk x = disk w /\
               config (self x) = config (self w) /\
               config_received (self x) = config_received (self w)).
  assert (G : P (final (incoming_server_comms n w))).
  { apply (triple_final P); [|unfold P; repeat split; exact Hw].
    unfold incoming_server_comms. apply always_linked.
    - apply always_incoming_loop. intros x Hx.
      destruct (server_rx x) as [|m rest] eqn:R.
      + rewrite (incoming_turn_idle x R). exact Hx.
      + rewrite (incoming_turn_server x m rest R).
        assert (Hm : is_command Messages.CONFIG m = false).
        { apply (proj1 Hx). rewrite R. left. reflexivity. }
        assert (Pt : P (taken_server x)).
        { destruct Hx as (H1 & H2). split; [|exact H2].
          intros m' Hm'. apply H1. cbn [server_rx taken_server] in Hm'.
          rewrite R in *. right. exact Hm'. }
        refine (handle_without_config P (fun _ => P) m Hm _ _ _ _ _
                  (taken_server x) Pt);
          unfold P, _handle_delete; intros; steady.
    - unfold on_exception, stop, P. steady. }
  exact (proj2 G).
Qed.

(** The two ways the command listener ends the process: if a run of it
    ends the process, then either the status is 0 and a DELETE command
    was among the messages waiting from the server, or the status is 1. *)
Theorem exit_zero_means_delete (n : nat) (w : World) (status : Z) :
  exit_status (incoming_server_comms n w) = Some status ->
  (status = 0%Z /\
   exists m, In m (server_rx w) /\ is_command Messages.DRONE_DELETE m = true) \/
  status = 1%Z.
Proof.
  intros Hx.
  pose (P := fun x : World =>
               existsb (is_command Messages.DRONE_DELETE) (server_rx x)
               = false).
  assert (B : forall k,
             triple P (incoming_loop k) (fun _ => P) P (fun _ _ => False)).
  { intros k. induction k as [|k IH]; cbn [incoming_loop]; [unfold P; steady|].
    apply steady_bind; [|intros _; exact IH].
    intros x Px. destruct (server_rx x) as [|m rest] eqn:R.
    - rewrite (incoming_turn_idle x R). exact Px.
    - rewrite (incoming_turn_server x m rest R).
      unfold P in Px. rewrite R in Px. cbn [existsb] in Px.
      apply orb_false_iff in Px. destruct Px as [Hm Hrest].
      assert (Pt : P (taken_server x)).
      { unfold P. cbn [server_rx taken_server]. rewrite R. exact Hrest. }
      refine (handle_without_delete P (fun _ _ => False) m Hm _ _ _ _ _
                (taken_server x) Pt);
        unfold P, handle_config, _start_drone, stop; intros; steady. }
  assert (Z0 : forall k,
             triple (fun _ => True) (incoming_loop k) (fun _ _ => True)
               (fun _ => True) (fun s _ => s = 0%Z)).
  { intros k. induction k as [|k IH]; cbn [incoming_loop]; [steady|].
    apply steady_bind; [|intros _; exact IH].
    unfold incoming_turn, incoming_poller, handle_server_message,
      handle_local_message, handle_config, _handle_delete, _start_drone, stop.
    steady. }
  assert (S1 : triple (fun _ => True) on_exception (fun _ _ => True)
                 (fun _ => True) (fun s _ => s = 1%Z)).
  { unfold on_exception, stop. steady. }
  unfold incoming_server_comms, linked in Hx.
  pose proof (Z0 n w I) as Hz.
  destruct (incoming_loop n w) as [a w'|e w'|s w'] eqn:L;
    cbn [exit_status] in Hx.
  - discriminate.
  - right. specialize (S1 w' I).
    destruct (on_exception w'); cbn [exit_status] in Hx; try discriminate.
    injection Hx as <-. exact S1.
  - injection Hx as <-. left. split; [exact Hz|].
    destruct (existsb (is_command Messages.DRONE_DELETE) (server_rx w)) eqn:D.
    { apply existsb_exists in D. exact D. }
    exfalso. specialize (B n w D). rewrite L in B. exact B.
Qed.

End Commands.

(** ** The same document twice *)

Section Twice.

Context {py : PyLib}.

Lemma handle_config_repeated (w : World) (data : string) (c : json) :
  loads data = Some c ->
  Py.eqb (config (self w)) c = true ->
  config_received (self w) = true ->
  handle_config data w =
  Returned tt
    (logged (Push SERVER_RELAY Messages.PING)
       (queued SERVER_RELAY Messages.PING w)).
Proof.
  intros Hl He Hr. unfold handle_config, bind, send_zmq_push, act, get_self.
  rewrite Hl. cbn [self logged queued]. unfold Py.neqb. rewrite He, Hr.
  reflexivity.
Qed.

(** The same CONFIG command twice in a row restarts the workload once:
    the first is applied, the second finds the document equal to the
    configuration that [_start_drone] read back and the latch set, and
    adds nothing but its PING. *)
Theorem same_config_twice_restarts_once (w : World)
  (message data : string) (rest : list string) (c m : json) :
  server_rx w = message :: message :: rest ->
  fields message = [id (self w); Messages.CONFIG; data] ->
  loads data = Some c ->
  Py.well_formed c = true ->
  Py.neqb (config (self w)) c = true \/ config_received (self w) = false ->
  loads (dumps c) = Some c ->
  general_mode c = inr m ->
  well_linked (self w) ->
  exists w',
    incoming_server_comms 2 w = Returned tt w' /\
    trace w' =
      (trace w ++
       [Push SERVER_RELAY Messages.PING;
        FileTruncate (config_file (self w));
        FileWrite (config_file (self w)) (dumps c)] ++
       stop_events (self w) ++
       [FileRead (config_file (self w))] ++
       spawn_events (started (self w) c (select_mode m)) ++
       [LatchSet; Push SERVER_RELAY Messages.PING])%list /\
    relay w' = (relay w ++ [Messages.PING; Messages.PING])%list /\
    drone (self w') = started (self w) c (select_mode m) /\
    config (self w') = c /\
    disk w' = Some (dumps c) /\
    server_rx w' = rest.
Proof.
  intros Hrx Hf Hl Hwf Hnew Hrt Hm L.
  exists (logged (Push SERVER_RELAY Messages.PING)
            (queued SERVER_RELAY Messages.PING
               (taken_server (reconciled c (select_mode m) (taken_server w))))).
  split.
  - unfold incoming_server_comms, linked.
    rewrite (incoming_loop_step 1 w message (message :: rest) Hrx).
    unfold bind at 1.
    rewrite (handle_config_message (taken_server w) message data Hf).
    rewrite (handle_config_applies (taken_server w) data c m Hl Hnew Hrt Hm L).
    rewrite (incoming_loop_step 0 _ message rest).
    + unfold bind.
      rewrite (handle_config_message
                 (taken_server (reconciled c (select_mode m) (taken_server w)))
                 message data Hf).
      rewrite (handle_config_repeated _ data c Hl).
      * reflexivity.
      * apply eqb_refl. exact Hwf.
      * reflexivity.
    + cbn [server_rx reconciled taken_server]. rewrite Hrx. reflexivity.
  - destruct w as [d dk srx lrx rl cm wr tr]. cbn [server_rx] in Hrx. subst srx.
    unfold reconciled. tidy. repeat split.
Qed.

End Twice.

(** ** The constructor's failures *)

Section Construction.

Context {py : PyLib}.

(** The constructor builds a drone exactly when [extract_keys] returns,
    the configuration has [general] with [id] and [fetch_ip] in it, the
    socket of server commands is created and bound and, if [fetch_ip] is
    true, the body of the [try] gave a text or raised [Timeout] or
    [ConnectionError].  When it builds none, the exception that comes out
    is that of the first of these steps that failed, as it was raised. *)
Theorem constructor_succeeds_exactly_when (wd : string) (c : json)
  (lps : option string) (keys bound : exn + unit) (fetched : exn + string) :
  ((exists d, __init__ wd c lps keys bound fetched = inr d) <->
   (exists general id_ fetch_ip,
      keys = inr tt /\
      Py.getitem c "general" = inr general /\
      Py.getitem general "id" = inr id_ /\
      bound = inr tt /\
      Py.getitem general "fetch_ip" = inr fetch_ip /\
      (Py.truthy fetch_ip = false \/
       (exists text, fetched = inr text) \/
       fetched = inl Timeout \/ fetched = inl ConnectionError))) /\
  (forall e, __init__ wd c lps keys bound fetched = inl e ->
     keys = inl e \/
     (keys = inr tt /\ Py.getitem c "general" = inl e) \/
     (exists general,
        keys = inr tt /\
        Py.getitem c "general" = inr general /\
        (Py.getitem general "id" = inl e \/
         (exists id_, Py.getitem general "id" = inr id_ /\
            (bound = inl e \/
             (bound = inr tt /\
              (Py.getitem general "fetch_ip" = inl e \/
               (exists fetch_ip,
                  Py.getitem general "fetch_ip" = inr fetch_ip /\
                  Py.truthy fetch_ip = true /\
                  fetched = inl e /\ e <> Timeout /\
                  e <> ConnectionError)))))))).
Proof.
  unfold __init__. split; [split|].
  - intros [d H].
    destruct keys as [e|[]]; [discriminate|].
    destruct (Py.getitem c "general") as [e|general]; [discriminate|].
    destruct (Py.getitem general "id") as [e|id_] eqn:Hi; [discriminate|].
    destruct bound as [e|[]]; [discriminate|].
    destruct (Py.getitem general "fetch_ip") as [e|fetch_ip] eqn:Hf;
      [discriminate|].
    exists general, id_, fetch_ip.
    split; [reflexivity|]. split; [reflexivity|]. split; [exact Hi|].
    split; [reflexivity|]. split; [exact Hf|].
    destruct (Py.truthy fetch_ip); [|left; reflexivity]. right.
    destruct fetched as [[]|text]; try discriminate.
    + right. left. reflexivity.
    + right. right. reflexivity.
    + left. exists text. reflexivity.
  - intros (general & id_ & fetch_ip & -> & -> & -> & -> & -> & H).
    destruct (Py.truthy fetch_ip); [|eexists; reflexivity].
    destruct H as [H|[[text ->]|[->| ->]]]; try discriminate;
      eexists; reflexivity.
  - intros e.
    destruct keys as [e1|[]]; [intros [= ->]; left; reflexivity|].
    destruct (Py.getitem c "general") as [e1|general];
      [intros [= ->]; right; left; split; reflexivity|].
    destruct (Py.getitem general "id") as [e1|id_] eqn:Hi.
    { intros [= ->]. right. right. exists general.
      split; [reflexivity|]. split; [reflexivity|]. left. exact Hi. }
    destruct bound as [e1|[]].
    { intros [= ->]. right. right. exists general.
      split; [reflexivity|]. split; [reflexivity|]. right. exists id_.
      split; [exact Hi|]. left. reflexivity. }
    destruct (Py.getitem general "fetch_ip") as [e1|fetch_ip] eqn:Hf.
    { intros [= ->]. right. right. exists general.
      split; [reflexivity|]. split; [reflexivity|]. right. exists id_.
      split; [exact Hi|]. right. split; [reflexivity|].
      left. exact Hf. }
    intros H. right. right. exists general.
    split; [reflexivity|]. split; [reflexivity|]. right. exists id_.
    split; [exact Hi|]. right. split; [reflexivity|].
    right. exists fetch_ip. split; [exact Hf|].
    destruct (Py.truthy fetch_ip); [|discriminate].
    split; [reflexivity|].
    destruct fetched as [[]|text]; try discriminate;
      injection H as <-; (split; [reflexivity|split; discriminate]).
Qed.

End Construction.

(** ** More runs on sample data *)

Section MoreRuns.

Import Sample.

Lemma other_command_sample :
  exists w' passed,
    incoming_server_comms (py := MiniJson.lib) 1
      (inbox running (Some "old") ["A1 BROADCAST all hands"] [])
    = Returned tt w' /\
    commands w' = ([] ++ [passed])%list /\
    "A1 BROADCAST all hands" = id running ++ " " ++ passed /\
    passed = "BROADCAST" ++ " " ++ "all hands" /\
    relay w' = [] /\
    self w' = running /\
    disk w' = Some "old" /\
    server_rx w' = [] /\
    trace w' = ([] ++ [Push SERVER_COMMANDS passed])%list.
Proof.
  apply (other_command_is_passed_on (py := MiniJson.lib)
           (inbox running (Some "old") ["A1 BROADCAST all hands"] [])
           "A1 BROADCAST all hands" "BROADCAST" "all hands" []).
  - reflexivity.
  - reflexivity.
  - discriminate.
  - discriminate.
Defined.

Lemma unreadable_config_sample :
  exists w',
    incoming_server_comms (py := MiniJson.lib) 2
      (inbox running (Some "old") ["A1 CONFIG {mode"] [])
    = Exited 1 w' /\
    relay w' = ([] ++ [Messages.PING])%list /\
    disk w' = Some "old" /\
    config (self w') = honeypot_cfg /\
    config_received (self w') = true /\
    drone (self w') = None /\
    server_rx w' = [] /\
    trace w' =
      ([] ++ Push SERVER_RELAY Messages.PING :: stop_events running)%list.
Proof.
  apply (unreadable_config_is_fatal (py := MiniJson.lib) 1
           (inbox running (Some "old") ["A1 CONFIG {mode"] [])
           "A1 CONFIG {mode" "{mode" []).
  - reflexivity.
  - reflexivity.
  - vm_compute; reflexivity.
  - right. discriminate.
Defined.

(** A document that has no mode in it, as the first configuration of a
    fresh drone: it is written, and the latch stays unset. *)
Lemma config_without_mode_sample :
  exists w',
    incoming_server_comms (py := MiniJson.lib) 1
      (inbox fresh None
         [config_message (JObj [("general", JObj [("id", JStr "A1")])])] [])
    = Exited 1 w' /\
    disk w'
    = Some (MiniJson.write (JObj [("general", JObj [("id", JStr "A1")])])) /\
    config (self w') = JObj [("general", JObj [("id", JStr "A1")])] /\
    config_received (self w') = false /\
    drone (self w') = None /\
    server_rx w' = [] /\
    trace w' =
      ([] ++
       [Push SERVER_RELAY Messages.PING;
        FileTruncate (config_file fresh);
        FileWrite (config_file fresh)
          (MiniJson.write (JObj [("general", JObj [("id", JStr "A1")])]))] ++
       stop_events fresh ++ [FileRead (config_file fresh)] ++
       restop_events fresh)%list.
Proof.
  apply (config_without_mode_is_written_then_fatal (py := MiniJson.lib) 0
           (inbox fresh None
              [config_message (JObj [("general", JObj [("id", JStr "A1")])])] [])
           (config_message (JObj [("general", JObj [("id", JStr "A1")])]))
           (MiniJson.write (JObj [("general", JObj [("id", JStr "A1")])])) []
           (JObj [("general", JObj [("id", JStr "A1")])]) KeyError).
  - reflexivity.
  - vm_compute; reflexivity.
  - vm_compute; reflexivity.
  - right. reflexivity.
  - vm_compute; reflexivity.
  - reflexivity.
  - left. reflexivity.
Defined.

Lemma start_drone_sample :
  exists w',
    _start_drone (py := MiniJson.lib)
      (world fresh (Some (MiniJson.write client_cfg)))
    = Returned tt w' /\
    config (self w') = client_cfg /\
    disk w' = Some (MiniJson.write client_cfg) /\
    (forall cls,
       (JStr "client" = JStr "honeypot" /\ cls = Honeypot) \/
       (JStr "client" = JStr "client" /\ cls = Client) ->
       drone (self w')
       = Some {| w_mode := cls; w_work_dir := work_dir fresh;
                 w_config := client_cfg |} /\
       drone_greenlet (self w') = drone (self w') /\
       trace w' =
         ([] ++
          [FileRead (config_file fresh);
           Spawn {| w_mode := cls; w_work_dir := work_dir fresh;
                    w_config := client_cfg |}])%list) /\
    (JStr "client" <> JStr "honeypot" -> JStr "client" <> JStr "client" ->
     drone (self w') = None /\
     drone_greenlet (self w') = None /\
     trace w' = ([] ++ [FileRead (config_file fresh)])%list).
Proof.
  apply (start_drone_follows_the_mode (py := MiniJson.lib)
           (world fresh (Some (MiniJson.write client_cfg)))
           (MiniJson.write client_cfg) client_cfg (JStr "client")).
  - reflexivity.
  - vm_compute; reflexivity.
  - reflexivity.
Defined.

Lemma stop_again_sample :
  exists w1 w2,
    stop (world running None) = Returned tt w1 /\
    stop w1 = Returned tt w2 /\
    drone (self w1) = None /\
    drone (self w2) = None /\
    drone_greenlet (self w2) = Some (hive honeypot_cfg) /\
    trace w1 = ([] ++ stop_events running)%list /\
    trace w2 = (trace w1 ++ restop_events running)%list.
Proof.
  apply (stop_again_only_kills_the_greenlet (world running None)).
  right. discriminate.
Defined.

Lemma sent_message_sample :
  exists topic payload,
    PyStr.split "IP 10.0.0.7 (eth0 up)" 1 = topic :: payload /\
    PyStr.split "IP A1 10.0.0.7 (eth0 up)" 2 = topic :: "A1" :: payload.
Proof.
  apply (sent_message_has_the_id_second "A1" "IP 10.0.0.7 (eth0 up)"
           "IP A1 10.0.0.7 (eth0 up)"); reflexivity.
Defined.

Lemma latch_sample :
  config_received
    (self
       (final
          (incoming_server_comms (py := MiniJson.lib) 3
             (inbox running (Some "old")
                [config_message unset_cfg; "A1 BROADCAST x"; "A1 DELETE x"] []))))
  = true.
Proof.
  apply (latch_is_never_cleared (py := MiniJson.lib) 3
           (inbox running (Some "old")
              [config_message unset_cfg; "A1 BROADCAST x"; "A1 DELETE x"] [])).
  reflexivity.
Defined.

Lemma acknowledged_sample :
  relay
    (final
       (incoming_server_comms (py := MiniJson.lib) 1
          (inbox running (Some "old") ["A1 CONFIG {mode"] [])))
  = ([] ++ [Messages.PING])%list /\
  commands
    (final
       (incoming_server_comms (py := MiniJson.lib) 1
          (inbox running (Some "old") ["A1 CONFIG {mode"] [])))
  = [].
Proof.
  apply (every_config_is_acknowledged_once (py := MiniJson.lib)
           (inbox running (Some "old") ["A1 CONFIG {mode"] [])
           "A1 CONFIG {mode" "{mode" []); reflexivity.
Defined.

Lemma ends_by_exit_sample :
  match
    incoming_server_comms (py := MiniJson.lib) 4
      (inbox running (Some "old")
         [config_message client_cfg; "A1 BROADCAST x"; "bad"] [])
  with
  | Returned _ w' => well_linked (self w')
  | Raised _ _ => False
  | Exited status _ => status = 0%Z \/ status = 1%Z
  end.
Proof.
  apply (listener_ends_by_exit_only (py := MiniJson.lib) 4
           (inbox running (Some "old")
              [config_message client_cfg; "A1 BROADCAST x"; "bad"] [])).
  right. discriminate.
Defined.

Lemma one_at_a_time_sample :
  one_at_a_time
    (trace
       (final
          (incoming_server_comms (py := MiniJson.lib) 4
             (inbox fresh None
                [config_message honeypot_cfg; config_message client_cfg;
                 config_message honeypot_cfg; "A1 DELETE x"] [])))).
Proof.
  apply (workloads_run_one_at_a_time (py := MiniJson.lib) 4
           (inbox fresh None
              [config_message honeypot_cfg; config_message client_cfg;
               config_message honeypot_cfg; "A1 DELETE x"] [])).
  split; [left; reflexivity|reflexivity].
Defined.

Lemma only_config_sample :
  disk
    (final
       (incoming_server_comms (py := MiniJson.lib) 3
          (inbox running (Some "old") ["A1 BROADCAST x"; "A1 DELETE x"] [])))
  = Some "old" /\
  config
    (self
       (final
          (incoming_server_comms (py := MiniJson.lib) 3
             (inbox running (Some "old") ["A1 BROADCAST x"; "A1 DELETE x"] []))))
  = honeypot_cfg /\
  config_received
    (self
       (final
          (incoming_server_comms (py := MiniJson.lib) 3
             (inbox running (Some "old") ["A1 BROADCAST x"; "A1 DELETE x"] []))))
  = true.
Proof.
  apply (only_config_changes_the_configuration (py := MiniJson.lib) 3
           (inbox running (Some "old") ["A1 BROADCAST x"; "A1 DELETE x"] [])).
  intros m [<-|[<-|[]]]; reflexivity.
Defined.

Lemma exit_zero_sample :
  exit_status
    (incoming_server_comms (py := MiniJson.lib) 3
       (inbox running (Some "old") ["A1 BROADCAST x"; "A1 DELETE x"] []))
  = Some 0%Z /\
  ((0%Z = 0%Z /\
    exists m,
      In m ["A1 BROADCAST x"; "A1 DELETE x"] /\
      is_command Messages.DRONE_DELETE m = true) \/
   0%Z = 1%Z).
Proof.
  split; [reflexivity|].
  apply (exit_zero_means_delete (py := MiniJson.lib) 3
           (inbox running (Some "old") ["A1 BROADCAST x"; "A1 DELETE x"] [])
           0%Z).
  reflexivity.
Defined.

Lemma same_config_twice_sample :
  exists w',
    incoming_server_comms (py := MiniJson.lib) 2
      (inbox running (Some "old")
         [config_message client_cfg; config_message client_cfg] [])
    = Returned tt w' /\
    trace w' =
      ([] ++
       [Push SERVER_RELAY Messages.PING;
        FileTruncate (config_file running);
        FileWrite (config_file running) (MiniJson.write client_cfg)] ++
       stop_events running ++
       [FileRead (config_file running)] ++
       spawn_events (started running client_cfg (select_mode (JStr "client"))) ++
       [LatchSet; Push SERVER_RELAY Messages.PING])%list /\
    relay w' = ([] ++ [Messages.PING; Messages.PING])%list /\
    drone (self w') = started running client_cfg (select_mode (JStr "client")) /\
    config (self w') = client_cfg /\
    disk w' = Some (MiniJson.write client_cfg) /\
    server_rx w' = [].
Proof.
  apply (same_config_twice_restarts_once (py := MiniJson.lib)
           (inbox running (Some "old")
              [config_message client_cfg; config_message client_cfg] [])
           (config_message client_cfg) (MiniJson.write client_cfg) []
           client_cfg (JStr "client")).
  - reflexivity.
  - vm_compute; reflexivity.
  - vm_compute; reflexivity.
  - reflexivity.
  - left. vm_compute; reflexivity.
  - vm_compute; reflexivity.
  - vm_compute; reflexivity.
  - right. discriminate.
Defined.

End MoreRuns.
